(** * The Algolia collection of web.dev: [src/site/_collections/algolia.js]

    The module flattens the site's posts, authors, newsletters and tags
    into one list of search records.  This development embeds the module
    in Rocq and proves the properties its specification states.

    - A JavaScript string is a [string]: the sequence of its code units,
      which the module only counts, cuts and compares with the line feed.
      An index or a length is a [Z], as the built-ins [lastIndexOf] and
      [slice] take any integer and clamp it.
    - The objects of the site are records.  A field that front matter may
      leave out is an [option], and [None] reads as [undefined]; a field
      that is there holds a value of the type the specification gives it.
      [data.tags], which the module tests with [Array.isArray], keeps its
      three shapes.
    - A JavaScript exception is the [Throw] outcome of the [result] type;
      nothing in the module catches one, so [bind] propagates it.
    - The modules required at the top of the file are the fields of the
      class [Requires]: total functions, as the specification describes
      them. *)

From Stdlib Require Import String Ascii List ZArith Lia Bool.
Import ListNotations.

Local Open Scope string_scope.
Local Open Scope Z_scope.

(** ** String built-ins used by [limitText] *)

Module Js.

(** The line feed, ['\n']. *)
Definition newline : ascii := Ascii.ascii_of_nat 10.

(** [s.length] *)
Definition length (s : string) : Z := Z.of_nat (String.length s).

(** [char_is c s k]: position [k] of [s] exists and holds [c]. *)
Definition char_is (c : ascii) (s : string) (k : nat) : bool :=
  match String.get k s with
  | Some x => Ascii.eqb x c
  | None => false
  end.

(** The backward search of [String.prototype.lastIndexOf] for a search
    string of one character: positions [k], [k-1], ..., [0] are tried in
    turn and the first that holds [c] is returned, [-1] when none does. *)
Fixpoint search_back (c : ascii) (s : string) (k : nat) : Z :=
  if char_is c s k then Z.of_nat k
  else match k with
       | O => -1
       | S k' => search_back c s k'
       end.

(** [s.lastIndexOf(c, position)]: the search starts at [position] clamped
    between [0] and [s.length - 1]; a string shorter than the search string
    holds no match. *)
Definition lastIndexOf (s : string) (c : ascii) (position : Z) : Z :=
  let len := length s in
  if len <? 1 then -1
  else search_back c s (Z.to_nat (Z.min (Z.max position 0) (len - 1))).

(** A relative index of [slice]: negative counts from the end, and the
    result is clamped between [0] and [len]. *)
Definition relative (len i : Z) : Z :=
  if i <? 0 then Z.max (len + i) 0 else Z.min i len.

(** [s.slice(start, end)] *)
Definition slice (s : string) (start end_ : Z) : string :=
  let len := length s in
  let from := relative len start in
  let to := relative len end_ in
  if to <=? from then ""%string
  else String.substring (Z.to_nat from) (Z.to_nat (to - from)) s.

End Js.

(** ** [limitText] (lines 33-44) *)

(** The default of the parameter [limit]. *)
Definition default_limit : Z := 7500.

(** [function limitText(fulltext, limit = 7500)]; [limit = None] is the
    call that leaves the second argument out. *)
Definition limitText (fulltext : string) (limit : option Z) : string :=
  let limit := match limit with Some l => l | None => default_limit end in
  if Js.length fulltext <=? limit then fulltext
  else
    let newlineIndex := Js.lastIndexOf fulltext Js.newline limit in
    let newlineIndex := if newlineIndex =? -1 then limit else newlineIndex in
    Js.slice fulltext 0 newlineIndex.

(** ** Exceptions *)

(** The only exception the module can raise by itself: the [TypeError] of
    reading [property] from [undefined]. *)
Inductive error : Type :=
| TypeError (property : string).

Inductive result (A : Type) : Type :=
| Ok (a : A)
| Throw (e : error).

Arguments Ok {A} a.
Arguments Throw {A} e.

Definition bind {A B : Type} (r : result A) (k : A -> result B) : result B :=
  match r with
  | Ok a => k a
  | Throw e => Throw e
  end.

Notation "x <- r ;; k" := (bind r (fun x => k))
  (at level 61, r at next level, right associativity).

(** [Array.prototype.map] with a callback that may throw: the elements are
    visited from left to right and the first exception ends the loop. *)
Fixpoint mapM {A B : Type} (f : A -> result B) (l : list A) : result (list B) :=
  match l with
  | [] => Ok []
  | x :: l' =>
      y <- f x ;;
      ys <- mapM f l' ;;
      Ok (y :: ys)
  end.

(** [Array.prototype.filter] with a callback that may throw. *)
Fixpoint filterM {A : Type} (f : A -> result bool) (l : list A) : result (list A) :=
  match l with
  | [] => Ok []
  | x :: l' =>
      b <- f x ;;
      xs <- filterM f l' ;;
      Ok (if b then x :: xs else xs)
  end.

(** ** Values read by the module *)

Module Dyn.

(** [o.property] where [o] may be [undefined]: the read throws. *)
Definition read {A B : Type} (o : option A) (property : string) (get : A -> B)
  : result B :=
  match o with
  | Some a => Ok (get a)
  | None => Throw (TypeError property)
  end.

(** Truthiness of a string-valued field: [undefined] and [''] are falsy. *)
Definition truthy (v : option string) : bool :=
  match v with
  | Some s => negb (s =? "")%string
  | None => false
  end.

(** [v + '...']: the string a string-valued field is coerced to. *)
Definition to_string (v : option string) : string :=
  match v with
  | Some s => s
  | None => "undefined"
  end.

(** [v || []] *)
Definition or_empty {A : Type} (v : option (list A)) : list A :=
  match v with
  | Some l => l
  | None => []
  end.

(** The own property [key] of an object used as a map, [None] when the
    object has no such property of its own.  The properties are kept in
    insertion order, the order [Object.values] lists them in. *)
Fixpoint property {A : Type} (obj : list (string * A)) (key : string) : option A :=
  match obj with
  | [] => None
  | (k, v) :: obj' => if (k =? key)%string then Some v else property obj' key
  end.

(** The names of the members a plain object inherits from
    [Object.prototype]. *)
Definition object_prototype : list string :=
  [ "constructor"; "__defineGetter__"; "__defineSetter__"; "hasOwnProperty";
    "__lookupGetter__"; "__lookupSetter__"; "isPrototypeOf";
    "propertyIsEnumerable"; "toString"; "valueOf"; "__proto__";
    "toLocaleString" ]%string.

Definition inherited (key : string) : bool :=
  existsb (fun name => (name =? key)%string) object_prototype.

(** What [obj[key]] finds on a plain object: a property of its own, or a
    member of [Object.prototype]. *)
Inductive member (A : Type) : Type :=
| Own (a : A)
| Inherited (name : string).

Arguments Own {A} a.
Arguments Inherited {A} name.

(** [obj[key]]: the own property when there is one, else the inherited
    member of that name, else [undefined]. *)
Definition index {A : Type} (obj : list (string * A)) (key : string)
  : option (member A) :=
  match property obj key with
  | Some a => Some (Own a)
  | None => if inherited key then Some (Inherited key) else None
  end.

(** [Object.values(obj)] *)
Definition values {A : Type} (obj : list (string * A)) : list A := map snd obj.

End Dyn.

(** [data.tags] as front matter can leave it: absent, a scalar, or a
    sequence of tags. *)
Inductive tags_value : Type :=
| TagsUndefined
| TagsScalar (tag : string)
| TagsArray (tags : list string).

(** [Array.isArray(v)] *)
Definition isArray (v : tags_value) : bool :=
  match v with
  | TagsArray _ => true
  | _ => false
  end.

(** The elements of an array value. *)
Definition elements (v : tags_value) : list string :=
  match v with
  | TagsArray tags => tags
  | _ => []
  end.

Module Page.
Record t : Type := make { url : option string }.
End Page.

Module Data.
Record t : Type := make {
  title : option string;
  tags : tags_value;
  authors : option (list string);
  description : option string;
  canonicalUrl : option string;
  page : option Page.t
}.
End Data.

Module FrontMatter.
Record t : Type := make { content : string }.
End FrontMatter.

Module Template.
Record t : Type := make { frontMatter : FrontMatter.t }.
End Template.

(** An Eleventy collection item, [{data, template}]. *)
Module Item.
Record t : Type := make { data : Data.t; template : Template.t }.
End Item.

Module EntryData.
Record t : Type := make { canonicalUrl : option string }.
End EntryData.

(** An entry of the authors or of the tags collection. *)
Module Entry.
Record t : Type := make {
  href : option string;
  title : option string;
  description : option string;
  data : option EntryData.t
}.
End Entry.

(** [m.title] for what a lookup in the authors collection found: the title
    of an entry, [undefined] for a member of [Object.prototype], none of
    which has a [title]. *)
Definition member_title (m : Dyn.member Entry.t) : option string :=
  match m with
  | Dyn.Own entry => Entry.title entry
  | Dyn.Inherited _ => None
  end.

(** A record of the search index.  [authors] and [_tags] are [None] in the
    records that have no such key (authors, newsletters, tags). *)
Module SearchRecord.
Record t : Type := make {
  objectID : string;
  lang : string;
  title : option string;
  url : option string;
  description : option string;
  fulltext : string;
  authors : option (list (option string));
  _tags : option tags_value
}.
End SearchRecord.

(** The Eleventy collection API, as far as the module calls it. *)
Module Collection.
Record t : Type := make { getFilteredByGlob : string -> list Item.t }.
End Collection.

(** ** The modules required at lines 17-23 *)

Class Requires : Type := {
  livePosts : Item.t -> bool;
  removeMarkdown : string -> string;
  authorsCollectionFn : Collection.t -> list (string * Entry.t);
  authorsFeed : list Entry.t -> list Entry.t;
  newslettersCollectionFn : Collection.t -> list Item.t;
  tagsCollectionFn : Collection.t -> list (string * Entry.t);
  tagsFeed : list Entry.t -> list Entry.t
}.

(** ** The exported function (lines 46-136) *)

Definition validTags : list string := ["post"%string].

(** [l.includes(x)] *)
Definition includes (l : list string) (x : string) : bool :=
  existsb (fun y => (y =? x)%string) l.

(** [const lang = 'en'] *)
Definition lang : string := "en".

(** The callback of the first filter (lines 52-58). *)
Definition hasValidTag (item : Item.t) : bool :=
  let tags := Data.tags (Item.data item) in
  if negb (isArray tags) then false
  else existsb (fun tag => includes validTags tag) (elements tags).

(** The callback of the second filter (lines 59-61):
    [item.data.title && item.data.page.url], read for its truthiness.  The
    right operand is evaluated only when the title is truthy. *)
Definition hasTitleAndUrl (item : Item.t) : result bool :=
  if Dyn.truthy (Data.title (Item.data item)) then
    url <- Dyn.read (Data.page (Item.data item)) "url" Page.url ;;
    Ok (Dyn.truthy url)
  else Ok false.

(** [limitText(v)] at a call site whose argument may be [undefined]: the
    function first reads [fulltext.length]. *)
Definition limitText_call (fulltext : option string) : result string :=
  Dyn.read fulltext "length" (fun s => limitText s None).

(** [value + '#' + lang] *)
Definition objectID_of (v : option string) : string :=
  (Dyn.to_string v ++ "#" ++ lang)%string.

Section Exports.

Context {R : Requires}.

(** The three filters over a list of items (lines 50-62). *)
Definition selectPosts (items : list Item.t) : result (list Item.t) :=
  let tagged := filter hasValidTag items in
  titled <- filterM hasTitleAndUrl tagged ;;
  Ok (filter livePosts titled).

Definition eleventyPosts (collection : Collection.t) : result (list Item.t) :=
  selectPosts (Collection.getFilteredByGlob collection "**/*.md").

(** The callback of [posts] (lines 72-95). *)
Definition post_record (authorsCollection : list (string * Entry.t))
  (item : Item.t) : result SearchRecord.t :=
  let data := Item.data item in
  let template := Item.template item in
  let fulltext := removeMarkdown (FrontMatter.content (Template.frontMatter template)) in
  let limited := limitText fulltext None in
  authors <- mapM (fun author =>
                     Dyn.read (Dyn.index authorsCollection author) "title" member_title)
                  (Dyn.or_empty (Data.authors data)) ;;
  url <- Dyn.read (Data.page data) "url" Page.url ;;
  Ok {| SearchRecord.objectID := objectID_of url;
        SearchRecord.lang := lang;
        SearchRecord.title := Data.title data;
        SearchRecord.url := Data.canonicalUrl data;
        SearchRecord.description := Data.description data;
        SearchRecord.fulltext := limited;
        SearchRecord.authors := Some authors;
        SearchRecord._tags := Some (Data.tags data) |}.

(** The callback of [authors] (lines 98-107). *)
Definition author_record (author : Entry.t) : result SearchRecord.t :=
  url <- Dyn.read (Entry.data author) "canonicalUrl" EntryData.canonicalUrl ;;
  fulltext <- limitText_call (Entry.description author) ;;
  Ok {| SearchRecord.objectID := objectID_of (Entry.href author);
        SearchRecord.lang := lang;
        SearchRecord.title := Entry.title author;
        SearchRecord.url := url;
        SearchRecord.description := Entry.description author;
        SearchRecord.fulltext := fulltext;
        SearchRecord.authors := None;
        SearchRecord._tags := None |}.

(** The callback of [newsletters] (lines 110-122). *)
Definition newsletter_record (item : Item.t) : result SearchRecord.t :=
  let data := Item.data item in
  let template := Item.template item in
  let fulltext := removeMarkdown (FrontMatter.content (Template.frontMatter template)) in
  let limited := limitText fulltext None in
  url <- Dyn.read (Data.page data) "url" Page.url ;;
  Ok {| SearchRecord.objectID := objectID_of url;
        SearchRecord.lang := lang;
        SearchRecord.title := Data.title data;
        SearchRecord.url := Data.canonicalUrl data;
        SearchRecord.description := Data.description data;
        SearchRecord.fulltext := limited;
        SearchRecord.authors := None;
        SearchRecord._tags := None |}.

(** The callback of [tags] (lines 124-133). *)
Definition tag_record (tag : Entry.t) : result SearchRecord.t :=
  url <- Dyn.read (Entry.data tag) "canonicalUrl" EntryData.canonicalUrl ;;
  fulltext <- limitText_call (Entry.description tag) ;;
  Ok {| SearchRecord.objectID := objectID_of (Entry.href tag);
        SearchRecord.lang := lang;
        SearchRecord.title := Entry.title tag;
        SearchRecord.url := url;
        SearchRecord.description := Entry.description tag;
        SearchRecord.fulltext := fulltext;
        SearchRecord.authors := None;
        SearchRecord._tags := None |}.

Definition posts (authorsCollection : list (string * Entry.t))
  (eleventyPosts : list Item.t) : result (list SearchRecord.t) :=
  mapM (post_record authorsCollection) eleventyPosts.

Definition authors (authorsCollection : list (string * Entry.t))
  : result (list SearchRecord.t) :=
  mapM author_record (authorsFeed (Dyn.values authorsCollection)).

Definition newsletters (newslettersCollection : list Item.t)
  : result (list SearchRecord.t) :=
  mapM newsletter_record newslettersCollection.

Definition tags (tagsCollection : list (string * Entry.t))
  : result (list SearchRecord.t) :=
  mapM tag_record (tagsFeed (Dyn.values tagsCollection)).

(** [module.exports = (collection) => ...], in the order the statements run. *)
Definition algolia (collection : Collection.t) : result (list SearchRecord.t) :=
  eleventyPosts <- eleventyPosts collection ;;
  let authorsCollection := authorsCollectionFn collection in
  let newslettersCollection := newslettersCollectionFn collection in
  let tagsCollection := tagsCollectionFn collection in
  posts <- posts authorsCollection eleventyPosts ;;
  authors <- authors authorsCollection ;;
  newsletters <- newsletters newslettersCollection ;;
  tags <- tags tagsCollection ;;
  Ok (posts ++ authors ++ newsletters ++ tags)%list.

End Exports.

(** ** The vocabulary of the properties *)

(** [r] is a prefix of [t]. *)
Definition prefix_of (r t : string) : Prop := exists rest, t = r ++ rest.

(** Position [i] of [t] holds a line break. *)
Definition break_at (t : string) (i : nat) : Prop :=
  String.get i t = Some Js.newline.

(** [i] is the last line break of [t] at or before position [L]. *)
Definition last_break (t : string) (L : Z) (i : nat) : Prop :=
  Z.of_nat i <= L /\ break_at t i /\
  forall j, (i < j)%nat -> Z.of_nat j <= L -> ~ break_at t j.

(** [t] holds no line break at or before position [L]. *)
Definition no_break_upto (t : string) (L : Z) : Prop :=
  forall j, Z.of_nat j <= L -> ~ break_at t j.

(** The last character of a string, if any. *)
Fixpoint last_char (s : string) : option ascii :=
  match s with
  | EmptyString => None
  | String c EmptyString => Some c
  | String _ s' => last_char s'
  end.

(** The URL of an item, [item.data.page.url], read without throwing:
    [undefined] when [data.page] is absent. *)
Definition page_url (item : Item.t) : option string :=
  match Data.page (Item.data item) with
  | Some page => Page.url page
  | None => None
  end.

(** The inclusion rule in the words of the specification: (a) the tags are
    a sequence holding a tag of the fixed set [{"post"}], (b) title and page
    URL are truthy, (c) the live-posts predicate accepts the item. *)
Definition eligible {R : Requires} (item : Item.t) : bool :=
  match Data.tags (Item.data item) with
  | TagsArray tags => existsb (fun tag => (tag =? "post")%string) tags
  | _ => false
  end
  && (Dyn.truthy (Data.title (Item.data item)) && Dyn.truthy (page_url item))
  && livePosts item.

(** The shape of item the second filter cannot read: a tagged item with a
    truthy title and no [data.page]. *)
Definition unguarded (item : Item.t) : bool :=
  hasValidTag item
  && Dyn.truthy (Data.title (Item.data item))
  && match Data.page (Item.data item) with
     | Some _ => false
     | None => true
     end.

(** The title of the author a key names, read without throwing. *)
Definition title_of (authorsCollection : list (string * Entry.t)) (author : string)
  : option string :=
  match Dyn.property authorsCollection author with
  | Some entry => Entry.title entry
  | None => None
  end.

(** The three properties every record has. *)
Definition well_formed (record : SearchRecord.t) : Prop :=
  SearchRecord.lang record = "en"%string /\
  (exists stem, SearchRecord.objectID record = (stem ++ "#en")%string) /\
  Js.length (SearchRecord.fulltext record) <= 7500.

(** ** A small site, for the examples *)

(** Strings with line feeds, for the examples. *)
Definition nl (s : string) : string := String Js.newline s.

(** A text of two lines. *)
Definition two_lines : string := "line one" ++ nl "line two".

(** A text with an empty line: two line breaks in a row. *)
Definition empty_line : string := "a" ++ nl (nl "bcd").

Definition author_x : Entry.t :=
  {| Entry.href := Some "/authors/authorx/"%string;
     Entry.title := Some "Author X"%string;
     Entry.description := Some "Posts by Author X."%string;
     Entry.data := Some {| EntryData.canonicalUrl := Some "/authors/authorx/"%string |} |}.

(** An entry whose description was left out. *)
Definition author_undescribed : Entry.t :=
  {| Entry.href := Some "/authors/authory/"%string;
     Entry.title := Some "Author Y"%string;
     Entry.description := None;
     Entry.data := Some {| EntryData.canonicalUrl := Some "/authors/authory/"%string |} |}.

Definition example_data : Data.t :=
  {| Data.title := Some "Example"%string;
     Data.tags := TagsArray ["post"%string];
     Data.authors := Some ["authorx"%string];
     Data.description := None;
     Data.canonicalUrl := Some "/example/"%string;
     Data.page := Some {| Page.url := Some "/example/"%string |} |}.

Definition example_template : Template.t :=
  {| Template.frontMatter := {| FrontMatter.content := two_lines |} |}.

Definition example_post : Item.t :=
  {| Item.data := example_data; Item.template := example_template |}.

(** The same post credited to an author the site does not know. *)
Definition orphan_post : Item.t :=
  {| Item.data :=
       {| Data.title := Some "Example"%string;
          Data.tags := TagsArray ["post"%string];
          Data.authors := Some ["nobody"%string];
          Data.description := None;
          Data.canonicalUrl := Some "/example/"%string;
          Data.page := Some {| Page.url := Some "/example/"%string |} |};
     Item.template := example_template |}.

(** The same post credited to [constructor], a name every plain object
    inherits a member for. *)
Definition inherited_key_post : Item.t :=
  {| Item.data :=
       {| Data.title := Some "Example"%string;
          Data.tags := TagsArray ["post"%string];
          Data.authors := Some ["constructor"%string];
          Data.description := None;
          Data.canonicalUrl := Some "/example/"%string;
          Data.page := Some {| Page.url := Some "/example/"%string |} |};
     Item.template := example_template |}.

(** The same post with [data.page] left out. *)
Definition pageless_post : Item.t :=
  {| Item.data :=
       {| Data.title := Some "Example"%string;
          Data.tags := TagsArray ["post"%string];
          Data.authors := Some ["authorx"%string];
          Data.description := None;
          Data.canonicalUrl := Some "/example/"%string;
          Data.page := None |};
     Item.template := example_template |}.

(** The same post with a scalar for [data.tags], and no page either. *)
Definition scalar_tags_post : Item.t :=
  {| Item.data :=
       {| Data.title := Some "Example"%string;
          Data.tags := TagsScalar "post"%string;
          Data.authors := Some ["authorx"%string];
          Data.description := None;
          Data.canonicalUrl := Some "/example/"%string;
          Data.page := None |};
     Item.template := example_template |}.

(** A newsletter with neither title nor description. *)
Definition bare_newsletter : Item.t :=
  {| Item.data :=
       {| Data.title := None;
          Data.tags := TagsUndefined;
          Data.authors := None;
          Data.description := None;
          Data.canonicalUrl := None;
          Data.page := Some {| Page.url := Some "/newsletter/1/"%string |} |};
     Item.template := example_template |}.

Definition site (items : list Item.t) : Collection.t :=
  {| Collection.getFilteredByGlob := fun _ => items |}.

(** The same post with no title, and no page either. *)
Definition untitled_post : Item.t :=
  {| Item.data :=
       {| Data.title := None;
          Data.tags := TagsArray ["post"%string];
          Data.authors := Some ["authorx"%string];
          Data.description := None;
          Data.canonicalUrl := Some "/example/"%string;
          Data.page := None |};
     Item.template := example_template |}.

(** An entry with nothing but a description and an empty data object. *)
Definition author_anonymous : Entry.t :=
  {| Entry.href := None;
     Entry.title := None;
     Entry.description := Some "Somebody."%string;
     Entry.data := Some {| EntryData.canonicalUrl := None |} |}.

(** Every post is live, Markdown is left as it is, the feeds keep the
    order of the collections. *)
Definition example_requires : Requires :=
  {| livePosts := fun _ => true;
     removeMarkdown := fun markdown => markdown;
     authorsCollectionFn := fun _ => [("authorx"%string, author_x)];
     authorsFeed := fun entries => entries;
     newslettersCollectionFn := fun _ => [bare_newsletter];
     tagsCollectionFn := fun _ => [];
     tagsFeed := fun entries => entries |}.

(** ** The examples, run *)

Example limitText_short : limitText "abc" (Some 3) = "abc"%string.
Proof. reflexivity. Qed.

Example limitText_break :
  limitText ("line one" ++ nl "line two") (Some 10) = "line one"%string.
Proof. reflexivity. Qed.

Example limitText_break_at_limit :
  limitText ("ab" ++ nl "cd") (Some 2) = "ab"%string.
Proof. reflexivity. Qed.

Example limitText_no_break : limitText "abcdef" (Some 4) = "abcd"%string.
Proof. reflexivity. Qed.

Example limitText_break_after_limit :
  limitText ("abcdef" ++ nl "g") (Some 4) = "abcd"%string.
Proof. reflexivity. Qed.

Example limitText_zero : limitText "abc" (Some 0) = ""%string.
Proof. reflexivity. Qed.

(** Bounds below zero are outside the contract: [slice] then counts from
    the end of the text. *)
Example limitText_negative_bound : limitText "abc" (Some (-1)) = "ab"%string.
Proof. reflexivity. Qed.

(** The whole transform on the site of one post. *)
Example algolia_example :
  @algolia example_requires (site [example_post]) =
  Ok [ {| SearchRecord.objectID := "/example/#en";
          SearchRecord.lang := "en";
          SearchRecord.title := Some "Example"%string;
          SearchRecord.url := Some "/example/"%string;
          SearchRecord.description := None;
          SearchRecord.fulltext := two_lines;
          SearchRecord.authors := Some [Some "Author X"%string];
          SearchRecord._tags := Some (TagsArray ["post"%string]) |};
       {| SearchRecord.objectID := "/authors/authorx/#en";
          SearchRecord.lang := "en";
          SearchRecord.title := Some "Author X"%string;
          SearchRecord.url := Some "/authors/authorx/"%string;
          SearchRecord.description := Some "Posts by Author X."%string;
          SearchRecord.fulltext := "Posts by Author X.";
          SearchRecord.authors := None;
          SearchRecord._tags := None |};
       {| SearchRecord.objectID := "/newsletter/1/#en";
          SearchRecord.lang := "en";
          SearchRecord.title := None;
          SearchRecord.url := None;
          SearchRecord.description := None;
          SearchRecord.fulltext := two_lines;
          SearchRecord.authors := None;
          SearchRecord._tags := None |} ].
Proof. reflexivity. Qed.

(** Items with scalar tags or without a title are left out, page or no
    page. *)
Example selectPosts_example :
  @selectPosts example_requires [scalar_tags_post; example_post; untitled_post]
  = Ok [example_post].
Proof. reflexivity. Qed.

(** An item with a tag and a title is read for its page. *)
Example selectPosts_pageless :
  @selectPosts example_requires [scalar_tags_post; example_post; pageless_post]
  = Throw (TypeError "url").
Proof. reflexivity. Qed.

(** Missing fields of an entry that has its description come out as
    [undefined]. *)
Example author_record_anonymous :
  author_record author_anonymous =
  Ok {| SearchRecord.objectID := "undefined#en";
        SearchRecord.lang := "en";
        SearchRecord.title := None;
        SearchRecord.url := None;
        SearchRecord.description := Some "Somebody."%string;
        SearchRecord.fulltext := "Somebody.";
        SearchRecord.authors := None;
        SearchRecord._tags := None |}.
Proof. reflexivity. Qed.

(** ** Facts about the built-ins *)

Section Builtins.

Lemma char_is_break t i : Js.char_is Js.newline t i = true <-> break_at t i.
Proof.
  unfold Js.char_is, break_at. destruct (String.get i t) as [x|].
  - rewrite Ascii.eqb_eq. split; congruence.
  - split; discriminate.
Qed.

Lemma char_is_no_break t i : Js.char_is Js.newline t i = false <-> ~ break_at t i.
Proof.
  rewrite <- char_is_break. destruct (Js.char_is Js.newline t i); intuition congruence.
Qed.

Lemma get_length_none s : forall i, (String.length s <= i)%nat -> String.get i s = None.
Proof.
  induction s as [|c s IH]; intros i Hi; simpl in *.
  - reflexivity.
  - destruct i as [|i]; [lia|]. apply IH. lia.
Qed.

Lemma get_some_lt s : forall i c, String.get i s = Some c -> (i < String.length s)%nat.
Proof.
  intros i c H. destruct (Nat.lt_ge_cases i (String.length s)) as [Hlt|Hge]; [exact Hlt|].
  rewrite (get_length_none s i Hge) in H. discriminate.
Qed.

Lemma substring0_zero s : String.substring 0 0 s = ""%string.
Proof. destruct s; reflexivity. Qed.

Lemma substring0_length s : forall n,
  String.length (String.substring 0 n s) = Nat.min n (String.length s).
Proof.
  induction s as [|c s IH]; intros [|n]; simpl; try reflexivity.
  rewrite IH. reflexivity.
Qed.

Lemma substring0_prefix s : forall n, prefix_of (String.substring 0 n s) s.
Proof.
  induction s as [|c s IH]; intros [|n]; simpl.
  - exists ""%string. reflexivity.
  - exists ""%string. reflexivity.
  - exists (String c s). reflexivity.
  - destruct (IH n) as [rest Hrest]. exists rest. simpl. congruence.
Qed.

Lemma substring0_all s : forall n,
  (String.length s <= n)%nat -> String.substring 0 n s = s.
Proof.
  induction s as [|c s IH]; intros [|n] Hn; simpl in *; try reflexivity; try lia.
  rewrite IH by lia. reflexivity.
Qed.

Lemma substring0_get s : forall n i,
  (i < n)%nat -> String.get i (String.substring 0 n s) = String.get i s.
Proof.
  induction s as [|c s IH]; intros [|n] i Hi; simpl; try reflexivity; try lia.
  destruct i as [|i]; [reflexivity|]. apply IH. lia.
Qed.

Lemma last_char_get s :
  last_char s = match String.length s with
                | O => None
                | S n => String.get n s
                end.
Proof.
  induction s as [|c s IH]; [reflexivity|].
  simpl. destruct s as [|d s]; [reflexivity|].
  rewrite IH. reflexivity.
Qed.

Lemma prefix_of_length r t : prefix_of r t -> (String.length r <= String.length t)%nat.
Proof.
  intros [rest ->]. induction r as [|c r IH]; simpl; lia.
Qed.

Lemma length_nonneg s : 0 <= Js.length s.
Proof. unfold Js.length. lia. Qed.

(** What the backward search returns. *)
Lemma search_back_spec c s : forall k,
  (Js.search_back c s k = -1 /\
   forall i, (i <= k)%nat -> Js.char_is c s i = false) \/
  (exists i, Js.search_back c s k = Z.of_nat i /\ (i <= k)%nat /\
             Js.char_is c s i = true /\
             forall j, (i < j <= k)%nat -> Js.char_is c s j = false).
Proof.
  induction k as [|k IH]; simpl.
  - destruct (Js.char_is c s 0) eqn:E.
    + right. exists 0%nat. repeat split; auto. intros j Hj. lia.
    + left. split; [reflexivity|]. intros i Hi. assert (i = 0)%nat by lia. now subst.
  - destruct (Js.char_is c s (S k)) eqn:E.
    + right. exists (S k). repeat split; auto. intros j Hj. lia.
    + destruct IH as [[Hm Hnone]|[i [Hi [Hle [Hc Hafter]]]]].
      * left. split; [exact Hm|]. intros i Hi.
        destruct (Nat.eq_dec i (S k)) as [->|Hne]; [exact E|]. apply Hnone. lia.
      * right. exists i. repeat split; auto.
        intros j Hj. destruct (Nat.eq_dec j (S k)) as [->|Hne]; [exact E|].
        apply Hafter. lia.
Qed.

(** [lastIndexOf] of a line break from a position inside the string. *)
Lemma lastIndexOf_spec t L :
  0 <= L < Js.length t ->
  (Js.lastIndexOf t Js.newline L = -1 /\ no_break_upto t L) \/
  (exists i, Js.lastIndexOf t Js.newline L = Z.of_nat i /\ last_break t L i).
Proof.
  intros HL. unfold Js.lastIndexOf.
  destruct (Z.ltb_spec (Js.length t) 1) as [Hlt|Hge]; [lia|].
  replace (Z.min (Z.max L 0) (Js.length t - 1)) with L by lia.
  destruct (search_back_spec Js.newline t (Z.to_nat L))
    as [[Hm Hnone]|[i [Hi [Hle [Hc Hafter]]]]].
  - left. split; [exact Hm|]. intros j Hj. apply char_is_no_break, Hnone. lia.
  - right. exists i. split; [exact Hi|]. split; [lia|].
    split; [now apply char_is_break|].
    intros j Hij Hj. apply char_is_no_break, Hafter. lia.
Qed.

(** [slice] from the start of the string. *)
Lemma slice0 s e :
  Js.slice s 0 e =
  String.substring 0 (Z.to_nat (Js.relative (Js.length s) e)) s.
Proof.
  unfold Js.slice.
  assert (H0 : Js.relative (Js.length s) 0 = 0).
  { unfold Js.relative. simpl. pose proof (length_nonneg s). lia. }
  rewrite H0. destruct (Z.leb_spec (Js.relative (Js.length s) e) 0) as [Hle|Hgt].
  - replace (Z.to_nat (Js.relative (Js.length s) e)) with 0%nat by lia.
    now rewrite substring0_zero.
  - now rewrite Z.sub_0_r.
Qed.

Lemma slice0_inside s e :
  0 <= e <= Js.length s ->
  Js.slice s 0 e = String.substring 0 (Z.to_nat e) s.
Proof.
  intros He. rewrite slice0. unfold Js.relative.
  destruct (Z.ltb_spec e 0); [lia|]. now rewrite Z.min_l by lia.
Qed.

End Builtins.

(** ** The text limiter *)

Section LimitText.

Lemma last_break_unique t L i i' : last_break t L i -> last_break t L i' -> i = i'.
Proof.
  intros (Hi & Hb & Hafter) (Hi' & Hb' & Hafter').
  destruct (Nat.lt_trichotomy i i') as [Hlt|[Heq|Hgt]]; [|exact Heq|].
  - exfalso. exact (Hafter i' Hlt Hi' Hb').
  - exfalso. exact (Hafter' i Hgt Hi Hb).
Qed.

Lemma last_break_not_none t L i : last_break t L i -> ~ no_break_upto t L.
Proof. intros (Hi & Hb & _) Hnone. exact (Hnone i Hi Hb). Qed.

(** A text within the bound is returned as it is. *)
Lemma limitText_unchanged t L : Js.length t <= L -> limitText t (Some L) = t.
Proof.
  intros H. unfold limitText. destruct (Z.leb_spec (Js.length t) L); [reflexivity|lia].
Qed.

(** The two outcomes of a truncation. *)
Lemma limitText_cases t L :
  0 <= L < Js.length t ->
  (no_break_upto t L /\
   limitText t (Some L) = String.substring 0 (Z.to_nat L) t) \/
  (exists i, last_break t L i /\
             limitText t (Some L) = String.substring 0 i t).
Proof.
  intros HL. unfold limitText.
  destruct (Z.leb_spec (Js.length t) L) as [Hle|Hgt]; [lia|].
  destruct (lastIndexOf_spec t L HL) as [[Hm Hnone]|[i [Hi Hlast]]].
  - left. split; [exact Hnone|]. rewrite Hm. simpl.
    apply slice0_inside. lia.
  - right. exists i. split; [exact Hlast|]. rewrite Hi.
    destruct (Z.eqb_spec (Z.of_nat i) (-1)) as [Heq|_]; [lia|].
    destruct Hlast as (Hle & _). rewrite slice0_inside by lia.
    now rewrite Nat2Z.id.
Qed.

(** Whatever the bound, the result is cut from the front of the text. *)
Lemma limitText_prefix t limit : prefix_of (limitText t limit) t.
Proof.
  unfold limitText.
  destruct (Js.length t <=? _).
  - exists ""%string. induction t as [|c t IH]; simpl; [reflexivity|]. now rewrite <- IH.
  - rewrite slice0. apply substring0_prefix.
Qed.

(** After a truncation at a bound [L >= 0] the text fits the bound. *)
Lemma limitText_fits t L : 0 <= L -> Js.length (limitText t (Some L)) <= L.
Proof.
  intros HL. destruct (Z.le_gt_cases (Js.length t) L) as [Hle|Hgt].
  - now rewrite limitText_unchanged.
  - destruct (limitText_cases t L) as [[_ ->]|[i [(Hi & _) ->]]]; [lia| |];
      unfold Js.length; rewrite substring0_length; lia.
Qed.

End LimitText.

(** C1: for every text and bound [maxLength] (7500 when left out),
    [limitText] returns the text unchanged when it is no longer than the
    bound; otherwise it returns the prefix that ends just before the last
    line break at or before position [maxLength], and the first [maxLength]
    characters when there is no such break.  In every case the result is a
    prefix of the text, and no longer than it. *)
Theorem limitText_contract (text : string) (maxLength : Z) :
  0 <= maxLength ->
  limitText text None = limitText text (Some 7500) /\
  (Js.length text <= maxLength -> limitText text (Some maxLength) = text) /\
  (maxLength < Js.length text ->
   ((exists i, last_break text maxLength i) \/ no_break_upto text maxLength) /\
   (forall i, last_break text maxLength i ->
      limitText text (Some maxLength) = String.substring 0 i text) /\
   (no_break_upto text maxLength ->
      limitText text (Some maxLength) =
      String.substring 0 (Z.to_nat maxLength) text)) /\
  prefix_of (limitText text (Some maxLength)) text /\
  (String.length (limitText text (Some maxLength)) <= String.length text)%nat.
Proof.
  intros H0. split; [reflexivity|]. split; [apply limitText_unchanged|].
  split.
  - intros Hgt.
    destruct (limitText_cases text maxLength) as [[Hnone Heq]|[i [Hlast Heq]]]; [lia| |].
    + split; [right; exact Hnone|]. split; [|intros _; exact Heq].
      intros i Hlast. exfalso. exact (last_break_not_none _ _ _ Hlast Hnone).
    + split; [left; exists i; exact Hlast|]. split.
      * intros i' Hlast'. now rewrite (last_break_unique _ _ _ _ Hlast' Hlast).
      * intros Hnone. exfalso. exact (last_break_not_none _ _ _ Hlast Hnone).
  - split; [apply limitText_prefix|]. apply prefix_of_length, limitText_prefix.
Qed.

Lemma limitText_contract_witness :
  0 <= 10 /\
  limitText two_lines None = limitText two_lines (Some 7500) /\
  (Js.length two_lines <= 10 -> limitText two_lines (Some 10) = two_lines) /\
  (10 < Js.length two_lines ->
   ((exists i, last_break two_lines 10 i) \/ no_break_upto two_lines 10) /\
   (forall i, last_break two_lines 10 i ->
      limitText two_lines (Some 10) = String.substring 0 i two_lines) /\
   (no_break_upto two_lines 10 ->
      limitText two_lines (Some 10) =
      String.substring 0 (Z.to_nat 10) two_lines)) /\
  prefix_of (limitText two_lines (Some 10)) two_lines /\
  (String.length (limitText two_lines (Some 10%Z)) <= String.length two_lines)%nat.
Proof. split; [lia | apply (limitText_contract two_lines 10); lia]. Defined.

(** C2, as the specification states it, fails on a text with an empty
    line: the text is longer than the bound and has a line break among its
    first three characters, yet the result of the cut ends with a line
    break. *)
Lemma limitText_trailing_newline :
  2 < Js.length empty_line /\
  break_at empty_line 1 /\
  limitText empty_line (Some 2) = ("a" ++ nl "")%string /\
  last_char (limitText empty_line (Some 2)) = Some Js.newline.
Proof. repeat split; reflexivity. Qed.

(** C2, amended: when the text is longer than the bound [L] and holds a
    line break among its first [L + 1] characters, the result ends exactly
    at the last such break [i], which is left out: it is the [i] characters
    before it.  Its last character is a line break exactly when the
    character just before that break is a line break too. *)
Theorem limitText_line_boundary (t : string) (L : Z) :
  0 <= L ->
  L < Js.length t ->
  (exists j, Z.of_nat j <= L /\ break_at t j) ->
  exists i,
    last_break t L i /\
    limitText t (Some L) = String.substring 0 i t /\
    String.length (limitText t (Some L)) = i /\
    (last_char (limitText t (Some L)) = Some Js.newline <->
     exists i', i = S i' /\ break_at t i').
Proof.
  intros H0 Hgt [j [Hj Hbj]].
  destruct (limitText_cases t L) as [[Hnone _]|[i [Hlast Heq]]]; [lia| |].
  - exfalso. exact (Hnone j Hj Hbj).
  - exists i. split; [exact Hlast|]. split; [exact Heq|].
    assert (Hi : (i < String.length t)%nat).
    { destruct Hlast as (_ & Hb & _). exact (get_some_lt _ _ _ Hb). }
    assert (Hlen : String.length (String.substring 0 i t) = i).
    { rewrite substring0_length. lia. }
    rewrite Heq. split; [exact Hlen|].
    rewrite last_char_get, Hlen. destruct i as [|i'].
    + split; [discriminate|]. intros [i' [Habs _]]. discriminate.
    + rewrite substring0_get by lia. unfold break_at. split.
      * intros H. exists i'. split; [reflexivity|exact H].
      * intros [k [Hk Hb]]. injection Hk as <-. exact Hb.
Qed.

Lemma limitText_line_boundary_witness :
  exists i,
    last_break two_lines 10 i /\
    limitText two_lines (Some 10) = String.substring 0 i two_lines /\
    String.length (limitText two_lines (Some 10)) = i /\
    (last_char (limitText two_lines (Some 10)) = Some Js.newline <->
     exists i', i = S i' /\ break_at two_lines i').
Proof.
  apply (limitText_line_boundary two_lines 10).
  - lia.
  - vm_compute. reflexivity.
  - exists 8%nat. split; [lia | reflexivity].
Defined.

(** C6: [limitText] is idempotent for a fixed bound, given or left out. *)
Theorem limitText_idempotent (t : string) (L : Z) :
  0 <= L ->
  limitText (limitText t (Some L)) (Some L) = limitText t (Some L) /\
  limitText (limitText t None) None = limitText t None.
Proof.
  intros H0. split.
  - apply limitText_unchanged, limitText_fits, H0.
  - change (limitText (limitText t (Some default_limit)) (Some default_limit)
            = limitText t (Some default_limit)).
    apply limitText_unchanged, limitText_fits. unfold default_limit. lia.
Qed.

Lemma limitText_idempotent_witness :
  0 <= 10 /\
  limitText (limitText two_lines (Some 10)) (Some 10) = limitText two_lines (Some 10) /\
  limitText (limitText two_lines None) None = limitText two_lines None.
Proof. split; [lia | apply (limitText_idempotent two_lines 10); lia]. Defined.

(** C7: a text with no line break at all that is longer than the bound [L]
    is cut to exactly [L] characters. *)
Theorem limitText_hard_cut (t : string) (L : Z) :
  0 <= L ->
  (forall j, ~ break_at t j) ->
  L < Js.length t ->
  Js.length (limitText t (Some L)) = L /\
  limitText t (Some L) = String.substring 0 (Z.to_nat L) t.
Proof.
  intros H0 Hnone Hgt.
  destruct (limitText_cases t L) as [[_ Heq]|[i [(_ & Hb & _) _]]]; [lia| |].
  - split; [|exact Heq]. rewrite Heq. unfold Js.length in *.
    rewrite substring0_length. lia.
  - exfalso. exact (Hnone i Hb).
Qed.

Lemma limitText_hard_cut_witness :
  Js.length (limitText "abcdef" (Some 4)) = 4 /\
  limitText "abcdef" (Some 4) = String.substring 0 (Z.to_nat 4) "abcdef".
Proof.
  apply (limitText_hard_cut "abcdef" 4).
  - lia.
  - intros j. unfold break_at.
    do 7 (destruct j as [|j]; [discriminate|]). discriminate.
  - vm_compute. reflexivity.
Defined.

(** ** Loops with a throwing callback *)

Section Loops.

Context {A B : Type}.

Lemma mapM_ok (f : A -> result B) (g : A -> B) (l : list A) :
  (forall x, In x l -> f x = Ok (g x)) -> mapM f l = Ok (map g l).
Proof.
  induction l as [|x l IH]; intros H; simpl; [reflexivity|].
  rewrite (H x) by (left; reflexivity). simpl.
  rewrite IH by (intros y Hy; apply H; right; exact Hy). reflexivity.
Qed.

Lemma mapM_Ok_inv (f : A -> result B) (l : list A) (r : list B) :
  mapM f l = Ok r -> Forall2 (fun x y => f x = Ok y) l r.
Proof.
  revert r. induction l as [|x l IH]; intros r H; simpl in H.
  - injection H as <-. constructor.
  - destruct (f x) as [y|e] eqn:Ex; simpl in H; [|discriminate].
    destruct (mapM f l) as [ys|e] eqn:El; simpl in H; [|discriminate].
    injection H as <-. constructor; [exact Ex|]. apply IH. reflexivity.
Qed.

Lemma mapM_length (f : A -> result B) (l : list A) (r : list B) :
  mapM f l = Ok r -> List.length r = List.length l.
Proof.
  intros H. apply mapM_Ok_inv in H. induction H; simpl; congruence.
Qed.

(** A loop throws what one of its calls throws. *)
Lemma mapM_Throw_inv (f : A -> result B) (l : list A) (e : error) :
  mapM f l = Throw e -> exists x, In x l /\ f x = Throw e.
Proof.
  induction l as [|x l IH]; intros H; simpl in H; [discriminate|].
  destruct (f x) as [y|e'] eqn:Ex; simpl in H.
  - destruct (mapM f l) as [ys|e''] eqn:El; simpl in H; [discriminate|].
    injection H as ->. destruct (IH eq_refl) as [z [Hz Hfz]].
    exists z. split; [right; exact Hz|exact Hfz].
  - injection H as ->. exists x. split; [left; reflexivity|exact Ex].
Qed.

(** A call that throws makes the loop throw. *)
Lemma mapM_throws (f : A -> result B) (l : list A) (x : A) (e : error) :
  In x l -> f x = Throw e -> exists e', mapM f l = Throw e'.
Proof.
  induction l as [|y l IH]; intros Hin Hx; [contradiction|]. simpl.
  destruct (f y) as [b|e'] eqn:Ey; simpl; [|eexists; reflexivity].
  destruct Hin as [->|Hin]; [congruence|].
  destruct (IH Hin Hx) as [e' ->]. simpl. eexists; reflexivity.
Qed.

Lemma filterM_ok (f : A -> result bool) (g : A -> bool) (l : list A) :
  (forall x, In x l -> f x = Ok (g x)) -> filterM f l = Ok (filter g l).
Proof.
  induction l as [|x l IH]; intros H; simpl; [reflexivity|].
  rewrite (H x) by (left; reflexivity). simpl.
  rewrite IH by (intros y Hy; apply H; right; exact Hy). reflexivity.
Qed.

Lemma filterM_Throw_inv (f : A -> result bool) (l : list A) (e : error) :
  filterM f l = Throw e -> exists x, In x l /\ f x = Throw e.
Proof.
  induction l as [|x l IH]; intros H; simpl in H; [discriminate|].
  destruct (f x) as [y|e'] eqn:Ex; simpl in H.
  - destruct (filterM f l) as [ys|e''] eqn:El; simpl in H; [discriminate|].
    injection H as ->. destruct (IH eq_refl) as [z [Hz Hfz]].
    exists z. split; [right; exact Hz|exact Hfz].
  - injection H as ->. exists x. split; [left; reflexivity|exact Ex].
Qed.

Lemma filterM_throws (f : A -> result bool) (l : list A) (x : A) (e : error) :
  In x l -> f x = Throw e -> exists e', filterM f l = Throw e'.
Proof.
  induction l as [|y l IH]; intros Hin Hx; [contradiction|]. simpl.
  destruct (f y) as [b|e'] eqn:Ey; simpl; [|eexists; reflexivity].
  destruct Hin as [->|Hin]; [congruence|].
  destruct (IH Hin Hx) as [e' ->]. simpl. eexists; reflexivity.
Qed.

End Loops.

(** ** The content selector *)

Section Selector.

Context {R : Requires}.

Lemma filter_filter_andb {A : Type} (f g : A -> bool) (l : list A) :
  filter g (filter f l) = filter (fun x => f x && g x) l.
Proof.
  induction l as [|x l IH]; simpl; [reflexivity|].
  destruct (f x); simpl; [destruct (g x)|]; now rewrite IH.
Qed.

Lemma hasValidTag_spec item :
  hasValidTag item =
  match Data.tags (Item.data item) with
  | TagsArray tags => existsb (fun tag => includes validTags tag) tags
  | _ => false
  end.
Proof. unfold hasValidTag. destruct (Data.tags (Item.data item)); reflexivity. Qed.

Lemma includes_validTags tag :
  includes validTags tag = true <-> tag = "post"%string.
Proof.
  unfold includes, validTags. cbn [existsb].
  rewrite orb_false_r, String.eqb_eq. split; congruence.
Qed.

Lemma hasValidTag_post item :
  hasValidTag item = true <->
  isArray (Data.tags (Item.data item)) = true /\
  In "post"%string (elements (Data.tags (Item.data item))).
Proof.
  rewrite hasValidTag_spec.
  destruct (Data.tags (Item.data item)) as [|s|ts]; cbn [isArray elements];
    try (split; [discriminate|intros [H _]; discriminate]).
  rewrite existsb_exists. split.
  - intros [tag [Hin Htag]]. split; [reflexivity|].
    apply includes_validTags in Htag. now subst.
  - intros [_ Hin]. exists "post"%string.
    split; [exact Hin|now apply includes_validTags].
Qed.

(** What the second callback does on each item. *)
Lemma hasTitleAndUrl_cases item :
  (Data.page (Item.data item) = None /\
   Dyn.truthy (Data.title (Item.data item)) = true /\
   hasTitleAndUrl item = Throw (TypeError "url")) \/
  ((Data.page (Item.data item) <> None \/
    Dyn.truthy (Data.title (Item.data item)) = false) /\
   hasTitleAndUrl item =
   Ok (Dyn.truthy (Data.title (Item.data item)) && Dyn.truthy (page_url item))).
Proof.
  unfold hasTitleAndUrl, page_url.
  destruct (Dyn.truthy (Data.title (Item.data item))) eqn:Et;
    destruct (Data.page (Item.data item)) as [p|] eqn:Ep; simpl.
  - right. split; [left; discriminate|reflexivity].
  - left. repeat split.
  - right. split; [left; discriminate|reflexivity].
  - right. split; [right; reflexivity|reflexivity].
Qed.

Lemma unguarded_true item :
  unguarded item = true <->
  hasValidTag item = true /\
  Dyn.truthy (Data.title (Item.data item)) = true /\
  Data.page (Item.data item) = None.
Proof.
  unfold unguarded. rewrite !andb_true_iff.
  destruct (Data.page (Item.data item)); intuition congruence.
Qed.

Lemma unguarded_false item :
  unguarded item = false <->
  (isArray (Data.tags (Item.data item)) = true ->
   In "post"%string (elements (Data.tags (Item.data item))) ->
   Dyn.truthy (Data.title (Item.data item)) = true ->
   Data.page (Item.data item) <> None).
Proof.
  split.
  - intros Hu Harr Hpost Htitle Hpage.
    assert (unguarded item = true); [|congruence].
    apply unguarded_true. repeat split; auto. apply hasValidTag_post. auto.
  - intros H. destruct (unguarded item) eqn:Eu; [|reflexivity].
    apply unguarded_true in Eu as (Htag & Htitle & Hpage).
    apply hasValidTag_post in Htag as [Harr Hpost].
    exfalso. exact (H Harr Hpost Htitle Hpage).
Qed.

Lemma eligible_spec item :
  eligible item =
  hasValidTag item
  && (Dyn.truthy (Data.title (Item.data item)) && Dyn.truthy (page_url item))
  && livePosts item.
Proof.
  unfold eligible. rewrite hasValidTag_spec.
  destruct (Data.tags (Item.data item)) as [|s|ts]; try reflexivity.
  do 2 f_equal. induction ts as [|tag ts IH]; [reflexivity|].
  cbn [existsb]. rewrite IH. f_equal.
  unfold includes, validTags. cbn [existsb].
  now rewrite orb_false_r, String.eqb_sym.
Qed.

(** Without an unguarded item the three filters amount to the inclusion
    rule. *)
Lemma selectPosts_ok items :
  (forall item, In item items -> unguarded item = false) ->
  selectPosts items = Ok (filter eligible items).
Proof.
  intros Hsafe. unfold selectPosts.
  rewrite (filterM_ok hasTitleAndUrl
             (fun item => Dyn.truthy (Data.title (Item.data item))
                          && Dyn.truthy (page_url item))).
  - simpl. rewrite !filter_filter_andb. f_equal.
    apply filter_ext. intros item. now rewrite eligible_spec, andb_assoc.
  - intros item Hin. apply filter_In in Hin as [Hin Htag].
    destruct (hasTitleAndUrl_cases item) as [(Hp & Ht & _)|[_ H]]; [|exact H].
    assert (unguarded item = true) by (apply unguarded_true; auto).
    rewrite Hsafe in H by exact Hin. discriminate.
Qed.

(** An unguarded item makes the second filter throw. *)
Lemma selectPosts_throws items item :
  In item items -> unguarded item = true ->
  selectPosts items = Throw (TypeError "url").
Proof.
  intros Hin Hu. apply unguarded_true in Hu as (Htag & Ht & Hp).
  unfold selectPosts.
  assert (Hthrow : hasTitleAndUrl item = Throw (TypeError "url")).
  { destruct (hasTitleAndUrl_cases item) as [(_ & _ & H)|[[H|H] _]];
      [exact H|contradiction|congruence]. }
  destruct (filterM_throws hasTitleAndUrl (filter hasValidTag items) item _
              (proj2 (filter_In _ _ _) (conj Hin Htag)) Hthrow) as [e He].
  rewrite He. simpl. f_equal.
  destruct (filterM_Throw_inv _ _ _ He) as [x [_ Hx]].
  destruct (hasTitleAndUrl_cases x) as [(_ & _ & H)|[_ H]]; congruence.
Qed.

Lemma selectPosts_Ok_inv items selected :
  selectPosts items = Ok selected ->
  (forall item, In item items -> unguarded item = false) /\
  selected = filter eligible items.
Proof.
  intros H.
  assert (Hsafe : forall item, In item items -> unguarded item = false).
  { intros item Hin. destruct (unguarded item) eqn:Eu; [|reflexivity].
    rewrite (selectPosts_throws items item Hin Eu) in H. discriminate. }
  split; [exact Hsafe|]. rewrite (selectPosts_ok items Hsafe) in H. congruence.
Qed.

(** A selected item has a page with a truthy URL. *)
Lemma eligible_page_url item :
  eligible item = true ->
  exists page url,
    Data.page (Item.data item) = Some page /\ Page.url page = Some url /\
    url <> ""%string /\ page_url item = Some url.
Proof.
  rewrite eligible_spec, !andb_true_iff. intros [[_ [_ Hu]] _].
  unfold page_url in *. destruct (Data.page (Item.data item)) as [p|]; [|discriminate].
  destruct (Page.url p) as [u|] eqn:Eu; [|discriminate].
  exists p, u. repeat split; auto. intros ->. discriminate.
Qed.

End Selector.

(** ** The record mappers *)

Section Mappers.

Context {R : Requires}.

Lemma append_length (a b : string) :
  String.length (a ++ b) = (String.length a + String.length b)%nat.
Proof. induction a as [|c a IH]; simpl; [reflexivity|]. now rewrite IH. Qed.

Lemma append_cancel_r (a b t : string) : (a ++ t = b ++ t)%string -> a = b.
Proof.
  intros H.
  assert (Hlen : String.length a = String.length b).
  { apply (f_equal String.length) in H. rewrite !append_length in H. lia. }
  revert b H Hlen. induction a as [|c a IH]; intros [|d b] H Hlen; simpl in *;
    try discriminate; [reflexivity|].
  injection H as -> H. f_equal. apply IH; [exact H|lia].
Qed.

(** The object IDs of two URLs differ when the URLs do. *)
Lemma objectID_of_inj (a b : string) :
  objectID_of (Some a) = objectID_of (Some b) -> a = b.
Proof. unfold objectID_of. simpl. apply append_cancel_r. Qed.

(** An own property is found by the lookup. *)
Lemma index_property {A : Type} (obj : list (string * A)) key :
  Dyn.property obj key <> None -> Dyn.index obj key <> None.
Proof.
  unfold Dyn.index. destruct (Dyn.property obj key); [discriminate|contradiction].
Qed.

(** The lookup finds nothing exactly for a key that is neither an own
    property nor the name of an inherited member. *)
Lemma index_None {A : Type} (obj : list (string * A)) key :
  Dyn.index obj key = None <->
  Dyn.property obj key = None /\ Dyn.inherited key = false.
Proof.
  unfold Dyn.index. destruct (Dyn.property obj key); [|destruct (Dyn.inherited key)];
    split; try discriminate; try tauto; intros [H1 H2]; discriminate.
Qed.

Lemma inherited_In key : Dyn.inherited key = true <-> In key Dyn.object_prototype.
Proof.
  unfold Dyn.inherited. rewrite existsb_exists. split.
  - intros [name [Hin Heq]]. apply String.eqb_eq in Heq. now subst.
  - intros Hin. exists key. split; [exact Hin|apply String.eqb_refl].
Qed.

(** The lookup finds an own property or an inherited member. *)
Lemma index_found {A : Type} (obj : list (string * A)) key :
  Dyn.index obj key <> None <->
  Dyn.property obj key <> None \/ In key Dyn.object_prototype.
Proof.
  rewrite <- inherited_In. unfold Dyn.index.
  destruct (Dyn.property obj key); [|destruct (Dyn.inherited key)]; split;
    try discriminate; try tauto; try (intros _; left; discriminate).
  intros [H|H]; [contradiction|discriminate].
Qed.

(** The title read through a lookup that found something. *)
Lemma index_title authorsCollection author :
  Dyn.index authorsCollection author <> None ->
  Dyn.read (Dyn.index authorsCollection author) "title" member_title
  = Ok (title_of authorsCollection author).
Proof.
  unfold Dyn.index, title_of.
  destruct (Dyn.property authorsCollection author); [reflexivity|].
  destruct (Dyn.inherited author); [reflexivity|contradiction].
Qed.

Lemma resolve_authors_ok authorsCollection keys :
  (forall author, In author keys -> Dyn.index authorsCollection author <> None) ->
  mapM (fun author =>
          Dyn.read (Dyn.index authorsCollection author) "title" member_title) keys
  = Ok (map (title_of authorsCollection) keys).
Proof.
  intros H. apply mapM_ok. intros author Hin. now apply index_title, H.
Qed.

Lemma resolve_authors_throws authorsCollection keys author :
  In author keys -> Dyn.index authorsCollection author = None ->
  mapM (fun author =>
          Dyn.read (Dyn.index authorsCollection author) "title" member_title) keys
  = Throw (TypeError "title").
Proof.
  intros Hin Hnone.
  destruct (mapM_throws
              (fun author =>
                 Dyn.read (Dyn.index authorsCollection author) "title" member_title)
              keys author (TypeError "title") Hin) as [e He].
  { now rewrite Hnone. }
  rewrite He. destruct (mapM_Throw_inv _ _ _ He) as [k [_ Hk]].
  destruct (Dyn.index authorsCollection k); simpl in Hk; congruence.
Qed.

(** The record of a post whose author keys all resolve and whose page is
    there. *)
Lemma post_record_ok authorsCollection item page :
  (forall author, In author (Dyn.or_empty (Data.authors (Item.data item))) ->
                  Dyn.index authorsCollection author <> None) ->
  Data.page (Item.data item) = Some page ->
  post_record authorsCollection item =
  Ok {| SearchRecord.objectID := objectID_of (Page.url page);
        SearchRecord.lang := lang;
        SearchRecord.title := Data.title (Item.data item);
        SearchRecord.url := Data.canonicalUrl (Item.data item);
        SearchRecord.description := Data.description (Item.data item);
        SearchRecord.fulltext :=
          limitText (removeMarkdown
                       (FrontMatter.content (Template.frontMatter (Item.template item))))
                    None;
        SearchRecord.authors :=
          Some (map (title_of authorsCollection)
                    (Dyn.or_empty (Data.authors (Item.data item))));
        SearchRecord._tags := Some (Data.tags (Item.data item)) |}.
Proof.
  intros Hkeys Hpage. unfold post_record.
  rewrite (resolve_authors_ok _ _ Hkeys), Hpage. reflexivity.
Qed.

(** The object ID of any record a post is mapped to. *)
Lemma post_record_objectID authorsCollection item record :
  post_record authorsCollection item = Ok record ->
  Data.page (Item.data item) <> None /\
  SearchRecord.objectID record = objectID_of (page_url item).
Proof.
  unfold post_record, page_url. intros H.
  destruct (mapM _ _) as [names|e]; simpl in H; [|discriminate].
  destruct (Data.page (Item.data item)) as [p|]; simpl in H; [|discriminate].
  injection H as <-. split; [discriminate|reflexivity].
Qed.

Lemma post_record_throws authorsCollection item author :
  In author (Dyn.or_empty (Data.authors (Item.data item))) ->
  Dyn.index authorsCollection author = None ->
  post_record authorsCollection item = Throw (TypeError "title").
Proof.
  intros Hin Hnone. unfold post_record.
  now rewrite (resolve_authors_throws _ _ _ Hin Hnone).
Qed.

(** A post with a page throws nothing but the failed author lookup. *)
Lemma post_record_Throw_inv authorsCollection item e :
  Data.page (Item.data item) <> None ->
  post_record authorsCollection item = Throw e -> e = TypeError "title".
Proof.
  intros Hpage. unfold post_record. intros H.
  destruct (mapM _ _) as [names|e'] eqn:Em; simpl in H.
  - destruct (Data.page (Item.data item)); [discriminate|contradiction].
  - injection H as ->. destruct (mapM_Throw_inv _ _ _ Em) as [k [_ Hk]].
    destruct (Dyn.index authorsCollection k); simpl in Hk; congruence.
Qed.

End Mappers.

(** ** The properties of the selector, the mappers and the aggregator *)

Section Claims.

Context {R : Requires}.

(** C3, as the specification states it, fails on an author or tag entry
    with no description: the mapper hands the missing description to
    [limitText], which reads its length, and the read throws. *)
Lemma entry_without_description_throws :
  Entry.description author_undescribed = None /\
  author_record author_undescribed = Throw (TypeError "length") /\
  tag_record author_undescribed = Throw (TypeError "length").
Proof. repeat split; reflexivity. Qed.

(** C3, amended: the mappers of authors, newsletters and tags validate
    nothing.  An author or tag entry that has a data object and a
    description is mapped to a record whose title and URL are the entry's
    title and canonical URL, [undefined] when these are missing, and whose
    object ID is built from the [href], ["undefined#en"] when it is
    missing.  A newsletter that has a page is mapped to a record whose
    title, URL and description are passed through, [undefined] when
    missing.  The mappers throw when they read through a missing value: an
    entry with no description or no data object, a newsletter with no
    page. *)
Theorem records_without_validation :
  (forall entry data text,
     Entry.data entry = Some data ->
     Entry.description entry = Some text ->
     exists record,
       author_record entry = Ok record /\
       tag_record entry = Ok record /\
       SearchRecord.objectID record = objectID_of (Entry.href entry) /\
       SearchRecord.title record = Entry.title entry /\
       SearchRecord.url record = EntryData.canonicalUrl data /\
       SearchRecord.description record = Some text /\
       SearchRecord.fulltext record = limitText text None) /\
  (forall entry,
     Entry.data entry = None \/ Entry.description entry = None ->
     exists e, author_record entry = Throw e /\ tag_record entry = Throw e) /\
  (forall item page,
     Data.page (Item.data item) = Some page ->
     exists record,
       newsletter_record item = Ok record /\
       SearchRecord.objectID record = objectID_of (Page.url page) /\
       SearchRecord.title record = Data.title (Item.data item) /\
       SearchRecord.url record = Data.canonicalUrl (Item.data item) /\
       SearchRecord.description record = Data.description (Item.data item)) /\
  (forall item,
     Data.page (Item.data item) = None ->
     newsletter_record item = Throw (TypeError "url")) /\
  objectID_of None = "undefined#en"%string.
Proof.
  repeat split.
  - intros entry data text Hd Ht. eexists.
    unfold author_record, tag_record, limitText_call. rewrite Hd, Ht. simpl.
    repeat split; reflexivity.
  - intros entry [H|H]; unfold author_record, tag_record, limitText_call; rewrite H.
    + eexists. split; reflexivity.
    + destruct (Entry.data entry); eexists; split; reflexivity.
  - intros item page Hp. eexists. unfold newsletter_record. rewrite Hp. simpl.
    repeat split; reflexivity.
  - intros item Hp. unfold newsletter_record. now rewrite Hp.
Qed.

(** C4, as the specification states it, fails on a collection that holds
    a tagged, titled item without [data.page]: the selector throws, so an
    item that meets (a), (b) and (c) is in no posts subsequence. *)
Lemma eleventyPosts_eligible_not_included :
  In example_post
     (Collection.getFilteredByGlob (site [example_post; pageless_post]) "**/*.md") /\
  @eligible example_requires example_post = true /\
  @eleventyPosts example_requires (site [example_post; pageless_post])
  = Throw (TypeError "url").
Proof. split; [left; reflexivity|split; reflexivity]. Qed.

(** C4, amended: the content selector returns exactly when every item of
    the collection that has ["post"] among a sequence of tags and a truthy
    title also has [data.page].  What it then returns is the items that (a)
    have a sequence of tags holding ["post"], (b) have a truthy title and a
    truthy page URL and (c) are accepted by the live-posts predicate, in
    the order of the collection.  An item whose tags are not a sequence is
    left out without any effect on the run. *)
Theorem eleventyPosts_selects (collection : Collection.t) :
  ((forall item,
      In item (Collection.getFilteredByGlob collection "**/*.md") ->
      isArray (Data.tags (Item.data item)) = true ->
      In "post"%string (elements (Data.tags (Item.data item))) ->
      Dyn.truthy (Data.title (Item.data item)) = true ->
      Data.page (Item.data item) <> None) <->
   eleventyPosts collection =
   Ok (filter eligible (Collection.getFilteredByGlob collection "**/*.md"))) /\
  (forall selected,
     eleventyPosts collection = Ok selected ->
     selected = filter eligible (Collection.getFilteredByGlob collection "**/*.md") /\
     forall item,
       In item selected <->
       In item (Collection.getFilteredByGlob collection "**/*.md") /\
       eligible item = true) /\
  (forall item,
     eligible item = true <->
     isArray (Data.tags (Item.data item)) = true /\
     In "post"%string (elements (Data.tags (Item.data item))) /\
     Dyn.truthy (Data.title (Item.data item)) = true /\
     Dyn.truthy (page_url item) = true /\
     livePosts item = true) /\
  (forall before item after,
     isArray (Data.tags (Item.data item)) = false ->
     eligible item = false /\
     selectPosts (before ++ item :: after) = selectPosts (before ++ after)).
Proof.
  unfold eleventyPosts. split; [|split; [|split]].
  - split.
    + intros H. apply selectPosts_ok. intros item Hin. now apply unguarded_false, H.
    + intros H. apply selectPosts_Ok_inv in H as [H _].
      intros item Hin. apply unguarded_false, H, Hin.
  - intros selected H. apply selectPosts_Ok_inv in H as [_ ->].
    split; [reflexivity|]. intros item. apply filter_In.
  - intros item. rewrite eligible_spec, !andb_true_iff, hasValidTag_post. tauto.
  - intros before item after H. split.
    + rewrite eligible_spec. unfold hasValidTag. now rewrite H.
    + unfold selectPosts. rewrite !filter_app. simpl.
      assert (Ht : hasValidTag item = false).
      { unfold hasValidTag. now rewrite H. }
      now rewrite Ht.
Qed.

(** C10: the second filter reads [item.data.page.url] without checking
    that [data.page] is there.  An item with ["post"] among its tags, a
    truthy title and no page makes the selector, and with it the whole
    transform, throw; the item is not left out. *)
Theorem eleventyPosts_missing_page_throws (collection : Collection.t) (item : Item.t) :
  In item (Collection.getFilteredByGlob collection "**/*.md") ->
  isArray (Data.tags (Item.data item)) = true ->
  In "post"%string (elements (Data.tags (Item.data item))) ->
  Dyn.truthy (Data.title (Item.data item)) = true ->
  Data.page (Item.data item) = None ->
  eleventyPosts collection = Throw (TypeError "url") /\
  algolia collection = Throw (TypeError "url").
Proof.
  intros Hin Harr Hpost Htitle Hpage.
  assert (H : eleventyPosts collection = Throw (TypeError "url")).
  { apply (selectPosts_throws _ item Hin). apply unguarded_true.
    repeat split; auto. apply hasValidTag_post. auto. }
  split; [exact H|]. unfold algolia. now rewrite H.
Qed.

(** C5, as the specification states it, fails on an author key that
    names a member of [Object.prototype]: the authors collection has no
    entry for [constructor], yet the lookup finds the inherited member, its
    title is [undefined], and the transform returns. *)
Lemma posts_inherited_key_returns :
  @eleventyPosts example_requires (site [inherited_key_post]) = Ok [inherited_key_post] /\
  Data.authors (Item.data inherited_key_post) = Some ["constructor"%string] /\
  Dyn.property (@authorsCollectionFn example_requires (site [inherited_key_post]))
    "constructor" = None /\
  (exists record,
     @post_record example_requires
       (@authorsCollectionFn example_requires (site [inherited_key_post]))
       inherited_key_post = Ok record /\
     SearchRecord.authors record = Some [None]) /\
  exists records, @algolia example_requires (site [inherited_key_post]) = Ok records.
Proof.
  split; [reflexivity|]. split; [reflexivity|]. split; [reflexivity|].
  split; eexists; [split|]; reflexivity.
Qed.

(** C5, amended: when a selected post names an author key that the authors
    collection has no entry for and that is not the name of a member
    inherited from [Object.prototype], the lookup throws, and the exception
    leaves the post mapper, the loop over the posts and the whole
    transform: no record list is returned. *)
Theorem posts_missing_author_throws (collection : Collection.t)
  (selected : list Item.t) (item : Item.t) (keys : list string) (author : string) :
  eleventyPosts collection = Ok selected ->
  In item selected ->
  Data.authors (Item.data item) = Some keys ->
  In author keys ->
  Dyn.property (authorsCollectionFn collection) author = None ->
  ~ In author Dyn.object_prototype ->
  post_record (authorsCollectionFn collection) item = Throw (TypeError "title") /\
  posts (authorsCollectionFn collection) selected = Throw (TypeError "title") /\
  algolia collection = Throw (TypeError "title").
Proof.
  intros Hsel Hin Hkeys Hauthor Hnone Hproto.
  assert (Hidx : Dyn.index (authorsCollectionFn collection) author = None).
  { apply index_None. split; [exact Hnone|].
    unfold Dyn.inherited. destruct (existsb _ _) eqn:Ex; [|reflexivity].
    apply existsb_exists in Ex as [name [Hname Heq]].
    apply String.eqb_eq in Heq. subst name. contradiction. }
  assert (Hrec : post_record (authorsCollectionFn collection) item
                 = Throw (TypeError "title")).
  { apply (post_record_throws _ _ author); [|exact Hidx]. now rewrite Hkeys. }
  assert (Hposts : posts (authorsCollectionFn collection) selected
                   = Throw (TypeError "title")).
  { unfold posts.
    destruct (mapM_throws (post_record (authorsCollectionFn collection))
                selected item _ Hin Hrec) as [e He].
    rewrite He. f_equal.
    destruct (mapM_Throw_inv _ _ _ He) as [x [Hx Hthrow]].
    apply (post_record_Throw_inv (authorsCollectionFn collection) x); [|exact Hthrow].
    apply selectPosts_Ok_inv in Hsel as [_ ->].
    apply filter_In in Hx as [_ Hx].
    destruct (eligible_page_url x Hx) as (p & u & Hp & _). congruence. }
  split; [exact Hrec|]. split; [exact Hposts|].
  unfold algolia. rewrite Hsel. simpl. now rewrite Hposts.
Qed.

(** C8: the record of every selected post has the page URL followed by
    ["#"] and the language code ["en"] for its object ID, so posts with
    pairwise distinct page URLs get pairwise distinct object IDs. *)
Theorem posts_objectID (collection : Collection.t) (selected : list Item.t) :
  eleventyPosts collection = Ok selected ->
  (forall item,
     In item selected ->
     exists url,
       page_url item = Some url /\
       forall record,
         post_record (authorsCollectionFn collection) item = Ok record ->
         SearchRecord.objectID record = (url ++ "#" ++ "en")%string) /\
  (forall records,
     posts (authorsCollectionFn collection) selected = Ok records ->
     map SearchRecord.objectID records =
     map (fun item => objectID_of (page_url item)) selected /\
     (NoDup (map page_url selected) -> NoDup (map SearchRecord.objectID records))) /\
  ((forall item author,
      In item selected ->
      In author (Dyn.or_empty (Data.authors (Item.data item))) ->
      Dyn.property (authorsCollectionFn collection) author <> None) ->
   exists records, posts (authorsCollectionFn collection) selected = Ok records).
Proof.
  intros Hsel. apply selectPosts_Ok_inv in Hsel as [_ Hsel].
  assert (Hurl : forall item, In item selected ->
                 exists page url,
                   Data.page (Item.data item) = Some page /\ Page.url page = Some url /\
                   url <> ""%string /\ page_url item = Some url).
  { intros item Hin. rewrite Hsel in Hin. apply filter_In in Hin as [_ Hin].
    now apply eligible_page_url. }
  split; [|split].
  - intros item Hin. destruct (Hurl item Hin) as (p & u & _ & _ & _ & Hu).
    exists u. split; [exact Hu|]. intros record Hrec.
    apply post_record_objectID in Hrec as [_ ->]. now rewrite Hu.
  - intros records Hrecs. unfold posts in Hrecs. apply mapM_Ok_inv in Hrecs.
    assert (Hids : map SearchRecord.objectID records =
                   map (fun item => objectID_of (page_url item)) selected).
    { clear Hurl Hsel. induction Hrecs as [|item record l l' Hrec _ IH]; simpl; [reflexivity|].
      apply post_record_objectID in Hrec as [_ ->]. now rewrite IH. }
    split; [exact Hids|]. intros Hnodup. rewrite Hids, <- map_map.
    apply NoDup_map_NoDup_ForallPairs; [|exact Hnodup].
    intros a b Ha Hb Hab.
    apply in_map_iff in Ha as [x [<- Hx]]. apply in_map_iff in Hb as [y [<- Hy]].
    destruct (Hurl x Hx) as (_ & u & _ & _ & _ & Hu).
    destruct (Hurl y Hy) as (_ & v & _ & _ & _ & Hv).
    rewrite Hu, Hv in *. f_equal. now apply objectID_of_inj.
  - intros Hkeys. unfold posts. eexists. apply mapM_ok with
      (g := fun item =>
              {| SearchRecord.objectID := objectID_of (page_url item);
                 SearchRecord.lang := lang;
                 SearchRecord.title := Data.title (Item.data item);
                 SearchRecord.url := Data.canonicalUrl (Item.data item);
                 SearchRecord.description := Data.description (Item.data item);
                 SearchRecord.fulltext :=
                   limitText (removeMarkdown
                                (FrontMatter.content
                                   (Template.frontMatter (Item.template item))))
                             None;
                 SearchRecord.authors :=
                   Some (map (title_of (authorsCollectionFn collection))
                             (Dyn.or_empty (Data.authors (Item.data item))));
                 SearchRecord._tags := Some (Data.tags (Item.data item)) |}).
    intros item Hin. destruct (Hurl item Hin) as (p & u & Hp & Hpu & _ & Hu).
    rewrite (post_record_ok _ item p);
      [|intros a Ha; now apply index_property, (Hkeys item)|exact Hp].
    unfold page_url. now rewrite Hp.
Qed.

(** C9: the list the transform returns is the mapped posts, then the
    mapped authors, then the mapped newsletters, then the mapped tags:
    nothing is dropped, merged or moved, and the list has one record per
    selected post, per entry of the authors feed, per newsletter and per
    entry of the tags feed. *)
Theorem algolia_concatenates (collection : Collection.t) :
  (forall selected ps us ns ts,
     eleventyPosts collection = Ok selected ->
     posts (authorsCollectionFn collection) selected = Ok ps ->
     authors (authorsCollectionFn collection) = Ok us ->
     newsletters (newslettersCollectionFn collection) = Ok ns ->
     tags (tagsCollectionFn collection) = Ok ts ->
     algolia collection = Ok (ps ++ us ++ ns ++ ts)%list) /\
  (forall records,
     algolia collection = Ok records ->
     exists selected ps us ns ts,
       eleventyPosts collection = Ok selected /\
       posts (authorsCollectionFn collection) selected = Ok ps /\
       authors (authorsCollectionFn collection) = Ok us /\
       newsletters (newslettersCollectionFn collection) = Ok ns /\
       tags (tagsCollectionFn collection) = Ok ts /\
       records = (ps ++ us ++ ns ++ ts)%list /\
       List.length records =
       (List.length selected
        + List.length (authorsFeed (Dyn.values (authorsCollectionFn collection)))
        + List.length (newslettersCollectionFn collection)
        + List.length (tagsFeed (Dyn.values (tagsCollectionFn collection))))%nat).
Proof.
  split.
  - intros selected ps us ns ts Hsel Hps Hus Hns Hts.
    unfold algolia. rewrite Hsel. simpl. rewrite Hps. simpl.
    rewrite Hus. simpl. rewrite Hns. simpl. now rewrite Hts.
  - intros records H. unfold algolia in H.
    destruct (eleventyPosts collection) as [selected|] eqn:Hsel; simpl in H; [|discriminate].
    destruct (posts _ selected) as [ps|] eqn:Hps; simpl in H; [|discriminate].
    destruct (authors _) as [us|] eqn:Hus; simpl in H; [|discriminate].
    destruct (newsletters _) as [ns|] eqn:Hns; simpl in H; [|discriminate].
    destruct (tags _) as [ts|] eqn:Hts; simpl in H; [|discriminate].
    injection H as <-. exists selected, ps, us, ns, ts.
    repeat split; try assumption; try reflexivity.
    rewrite !length_app.
    rewrite (mapM_length _ _ _ Hps), (mapM_length _ _ _ Hus),
      (mapM_length _ _ _ Hns), (mapM_length _ _ _ Hts). lia.
Qed.

End Claims.

(** ** The hypotheses of the theorems hold on the example site *)

Lemma eleventyPosts_missing_page_throws_witness :
  @eleventyPosts example_requires (site [example_post; pageless_post])
  = Throw (TypeError "url") /\
  @algolia example_requires (site [example_post; pageless_post])
  = Throw (TypeError "url").
Proof.
  apply (@eleventyPosts_missing_page_throws example_requires
           (site [example_post; pageless_post]) pageless_post).
  - simpl. right. left. reflexivity.
  - reflexivity.
  - simpl. left. reflexivity.
  - reflexivity.
  - reflexivity.
Defined.

Lemma posts_missing_author_throws_witness :
  @post_record example_requires
    (@authorsCollectionFn example_requires (site [example_post; orphan_post]))
    orphan_post
  = Throw (TypeError "title") /\
  @posts example_requires
    (@authorsCollectionFn example_requires (site [example_post; orphan_post]))
    [example_post; orphan_post]
  = Throw (TypeError "title") /\
  @algolia example_requires (site [example_post; orphan_post])
  = Throw (TypeError "title").
Proof.
  apply (@posts_missing_author_throws example_requires
           (site [example_post; orphan_post]) [example_post; orphan_post]
           orphan_post ["nobody"%string] "nobody"%string).
  - reflexivity.
  - simpl. right. left. reflexivity.
  - reflexivity.
  - simpl. left. reflexivity.
  - reflexivity.
  - simpl. intuition discriminate.
Defined.

Lemma posts_objectID_witness :
  (forall item,
     In item [example_post] ->
     exists url,
       page_url item = Some url /\
       forall record,
         @post_record example_requires
           (@authorsCollectionFn example_requires (site [example_post])) item
         = Ok record ->
         SearchRecord.objectID record = (url ++ "#" ++ "en")%string) /\
  (forall records,
     @posts example_requires
       (@authorsCollectionFn example_requires (site [example_post])) [example_post]
     = Ok records ->
     map SearchRecord.objectID records =
     map (fun item => objectID_of (page_url item)) [example_post] /\
     (NoDup (map page_url [example_post]) ->
      NoDup (map SearchRecord.objectID records))) /\
  ((forall item author,
      In item [example_post] ->
      In author (Dyn.or_empty (Data.authors (Item.data item))) ->
      Dyn.property (@authorsCollectionFn example_requires (site [example_post])) author
      <> None) ->
   exists records,
     @posts example_requires
       (@authorsCollectionFn example_requires (site [example_post])) [example_post]
     = Ok records).
Proof.
  apply (@posts_objectID example_requires (site [example_post]) [example_post]).
  reflexivity.
Defined.

(** * Further properties of the module *)

(** ** [limitText]: bounds, composition, edge cases *)

Section LimitTextMore.

Lemma substring0_substring0 t : forall a n,
  (a <= n)%nat ->
  String.substring 0 a (String.substring 0 n t) = String.substring 0 a t.
Proof.
  induction t as [|c t IH]; intros [|a] [|n] Han; simpl; try reflexivity; try lia.
  f_equal. apply IH. lia.
Qed.

Lemma break_at_substring0 t n j :
  (j < n)%nat -> break_at (String.substring 0 n t) j <-> break_at t j.
Proof. intros Hj. unfold break_at. now rewrite substring0_get. Qed.

Lemma last_break_substring0 t n L i :
  L < Z.of_nat n ->
  last_break (String.substring 0 n t) L i <-> last_break t L i.
Proof.
  intros HL. unfold last_break. split; intros (Hi & Hb & Hafter).
  - split; [exact Hi|]. split; [apply (break_at_substring0 t n); [lia|exact Hb]|].
    intros j Hij Hj Hbj. apply (Hafter j Hij Hj).
    apply break_at_substring0; [lia|exact Hbj].
  - split; [exact Hi|]. split; [apply break_at_substring0; [lia|exact Hb]|].
    intros j Hij Hj Hbj. apply (Hafter j Hij Hj).
    apply (break_at_substring0 t n); [lia|exact Hbj].
Qed.

Lemma no_break_substring0 t n L :
  L < Z.of_nat n ->
  no_break_upto (String.substring 0 n t) L <-> no_break_upto t L.
Proof.
  intros HL. unfold no_break_upto. split; intros H j Hj Hb; apply (H j Hj).
  - apply break_at_substring0; [lia|exact Hb].
  - apply (break_at_substring0 t n); [lia|exact Hb].
Qed.

(** Cutting a text beyond the bound first does not change what
    [limitText] returns. *)
Lemma limitText_substring0 t n L :
  0 <= L < Z.of_nat n ->
  (n <= String.length t)%nat ->
  limitText (String.substring 0 n t) (Some L) = limitText t (Some L).
Proof.
  intros HL Hn.
  assert (Hlen : Js.length (String.substring 0 n t) = Z.of_nat n).
  { unfold Js.length. rewrite substring0_length. lia. }
  destruct (limitText_cases (String.substring 0 n t) L) as [[Hnone Heq]|[i [Hlast Heq]]];
    [lia| |];
    (destruct (limitText_cases t L) as [[Hnone' Heq']|[i' [Hlast' Heq']]];
     [unfold Js.length; lia| |]); rewrite Heq, Heq'.
  - apply substring0_substring0. lia.
  - exfalso. apply (last_break_not_none t L i' Hlast').
    apply (no_break_substring0 t n L); [lia|exact Hnone].
  - exfalso. apply (last_break_not_none t L i); [|exact Hnone'].
    apply (last_break_substring0 t n L i); [lia|exact Hlast].
  - assert (i = i').
    { apply (last_break_unique t L); [|exact Hlast'].
      apply (last_break_substring0 t n L i); [lia|exact Hlast]. }
    subst i'. apply substring0_substring0. destruct Hlast as (Hi & _). lia.
Qed.

(** Limiting to a larger bound first and to a smaller one next is limiting
    to the smaller one. *)
Lemma limitText_limitText t L1 L2 :
  0 <= L1 <= L2 ->
  limitText (limitText t (Some L2)) (Some L1) = limitText t (Some L1).
Proof.
  intros HL.
  destruct (Z.le_gt_cases (Js.length t) L2) as [Hle|Hgt].
  { now rewrite (limitText_unchanged t L2 Hle). }
  assert (Hcut : exists n,
             limitText t (Some L2) = String.substring 0 n t /\
             Z.of_nat n <= L2 /\
             (Z.of_nat n <= L1 -> limitText t (Some L1) = String.substring 0 n t)).
  { destruct (limitText_cases t L2) as [[Hnone Heq]|[i [Hlast Heq]]]; [lia| |].
    - exists (Z.to_nat L2). split; [exact Heq|]. split; [lia|].
      intros Hn. assert (L1 = L2) by lia. subst L1. exact Heq.
    - exists i. split; [exact Heq|]. destruct Hlast as (Hi & Hb & Hafter).
      split; [exact Hi|]. intros Hn.
      destruct (limitText_cases t L1) as [[Hnone' _]|[i' [Hlast' Heq']]]; [lia| |].
      + exfalso. exact (Hnone' i Hn Hb).
      + rewrite Heq'. f_equal. apply (last_break_unique t L1); [exact Hlast'|].
        split; [exact Hn|]. split; [exact Hb|].
        intros j Hij Hj. apply (Hafter j Hij). lia. }
  destruct Hcut as (n & Heq & Hn2 & Hsmall). rewrite Heq.
  destruct (Z.le_gt_cases (Z.of_nat n) L1) as [Hn1|Hn1].
  - rewrite (Hsmall Hn1). apply limitText_unchanged.
    unfold Js.length. rewrite substring0_length. lia.
  - apply limitText_substring0; [lia|]. unfold Js.length in Hgt. lia.
Qed.

End LimitTextMore.

(** X1: for a bound [L >= 0] the result of [limitText] has at most [L]
    characters, and at most 7500 when the bound is left out. *)
Theorem limitText_bound (t : string) (L : Z) :
  0 <= L ->
  Js.length (limitText t (Some L)) <= L /\
  Js.length (limitText t None) <= 7500.
Proof.
  intros HL. split; [now apply limitText_fits|].
  apply (limitText_fits t default_limit). unfold default_limit. lia.
Qed.

Lemma limitText_bound_witness :
  Js.length (limitText two_lines (Some 10)) <= 10 /\
  Js.length (limitText two_lines None) <= 7500.
Proof. apply (limitText_bound two_lines 10). lia. Defined.

(** X2: limiting a text to a bound and the result to a smaller bound gives
    what limiting the text to the smaller bound gives. *)
Theorem limitText_compose (t : string) (L1 L2 : Z) :
  0 <= L1 ->
  L1 <= L2 ->
  limitText (limitText t (Some L2)) (Some L1) = limitText t (Some L1).
Proof. intros H1 H2. apply limitText_limitText. lia. Qed.

Lemma limitText_compose_witness :
  limitText (limitText two_lines (Some 12)) (Some 5) = limitText two_lines (Some 5).
Proof. apply (limitText_compose two_lines 5 12); lia. Defined.

(** X3: a larger bound never yields less text: the result for the smaller
    bound is a prefix of the result for the larger one. *)
Theorem limitText_monotone (t : string) (L1 L2 : Z) :
  0 <= L1 ->
  L1 <= L2 ->
  prefix_of (limitText t (Some L1)) (limitText t (Some L2)).
Proof.
  intros H1 H2. rewrite <- (limitText_limitText t L1 L2) by lia.
  apply limitText_prefix.
Qed.

Lemma limitText_monotone_witness :
  prefix_of (limitText two_lines (Some 5)) (limitText two_lines (Some 12)).
Proof. apply (limitText_monotone two_lines 5 12); lia. Defined.

(** X4: for a bound [L >= 0] the text is returned as it is exactly when it
    has at most [L] characters. *)
Theorem limitText_unchanged_iff (t : string) (L : Z) :
  0 <= L ->
  (limitText t (Some L) = t <-> Js.length t <= L).
Proof.
  intros HL. split; [|apply limitText_unchanged].
  intros Heq. pose proof (limitText_fits t L HL) as Hfit.
  now rewrite Heq in Hfit.
Qed.

Lemma limitText_unchanged_iff_witness :
  limitText two_lines (Some 10) = two_lines <-> Js.length two_lines <= 10.
Proof. apply (limitText_unchanged_iff two_lines 10). lia. Defined.

(** X5: a bound below zero is not a bound on the length.  Only the empty
    text is returned whole; a text that starts with a line break gives the
    empty result, and from any other text [slice] drops the last [-L]
    characters. *)
Theorem limitText_negative (t : string) (L : Z) :
  L < 0 ->
  (limitText t (Some L) = t <-> t = ""%string) /\
  (break_at t 0 -> limitText t (Some L) = ""%string) /\
  (~ break_at t 0 ->
   limitText t (Some L) = String.substring 0 (Z.to_nat (Js.length t + L)) t /\
   Js.length (limitText t (Some L)) = Z.max (Js.length t + L) 0).
Proof.
  intros HL. pose proof (length_nonneg t) as Hlen.
  assert (Hcases :
    (break_at t 0 -> limitText t (Some L) = ""%string) /\
    (~ break_at t 0 ->
     limitText t (Some L) = String.substring 0 (Z.to_nat (Js.length t + L)) t /\
     Js.length (limitText t (Some L)) = Z.max (Js.length t + L) 0)).
  { unfold limitText. destruct (Z.leb_spec (Js.length t) L) as [Hle|_]; [lia|].
    assert (Hidx : Js.lastIndexOf t Js.newline L =
                   if Js.char_is Js.newline t 0 then 0 else -1).
    { unfold Js.lastIndexOf. destruct (Z.ltb_spec (Js.length t) 1) as [Hlt|Hge].
      - assert (Hnone : Js.char_is Js.newline t 0 = false).
        { unfold Js.char_is. rewrite get_length_none; [reflexivity|].
          unfold Js.length in Hlt. lia. }
        now rewrite Hnone.
      - replace (Z.min (Z.max L 0) (Js.length t - 1)) with 0 by lia. reflexivity. }
    rewrite Hidx. split.
    - intros Hb. apply char_is_break in Hb. rewrite Hb. simpl.
      rewrite slice0_inside by lia. apply substring0_zero.
    - intros Hb. apply char_is_no_break in Hb. rewrite Hb. simpl.
      assert (Heq : Js.slice t 0 L =
                    String.substring 0 (Z.to_nat (Js.length t + L)) t).
      { rewrite slice0. unfold Js.relative.
        destruct (Z.ltb_spec L 0) as [_|Hge]; [|lia].
        f_equal. lia. }
      split; [exact Heq|]. rewrite Heq. unfold Js.length.
      rewrite substring0_length. unfold Js.length in *. lia. }
  split; [|exact Hcases]. destruct Hcases as [Hbreak Hother]. split.
  - intros Heq. destruct t as [|c t]; [reflexivity|]. exfalso.
    destruct (Ascii.eqb_spec c Js.newline) as [->|Hne].
    + rewrite Hbreak in Heq by reflexivity. discriminate.
    + destruct Hother as [_ Hl].
      { unfold break_at. simpl. congruence. }
      rewrite Heq in Hl. unfold Js.length in Hl. simpl String.length in Hl. lia.
  - intros ->. destruct Hother as [Heq _]; [unfold break_at; simpl; discriminate|].
    rewrite Heq. now destruct (Z.to_nat _).
Qed.

Lemma limitText_negative_witness :
  (limitText "abc" (Some (-1)) = "abc"%string <-> "abc"%string = ""%string) /\
  (break_at "abc" 0 -> limitText "abc" (Some (-1)) = ""%string) /\
  (~ break_at "abc" 0 ->
   limitText "abc" (Some (-1)) = String.substring 0 (Z.to_nat (Js.length "abc" + -1)) "abc" /\
   Js.length (limitText "abc" (Some (-1))) = Z.max (Js.length "abc" + -1) 0).
Proof. apply (limitText_negative "abc" (-1)). lia. Defined.

(** ** The selector: composition and the items it never reads *)

Section SelectorMore.

Context {R : Requires}.

Lemma bind_Ok {A : Type} (r : result A) : (x <- r ;; Ok x) = r.
Proof. destruct r; reflexivity. Qed.

Lemma filterM_app {A : Type} (f : A -> result bool) (a b : list A) :
  filterM f (a ++ b) =
  (xa <- filterM f a ;; xb <- filterM f b ;; Ok (xa ++ xb)%list).
Proof.
  induction a as [|x a IH]; simpl.
  - now rewrite bind_Ok.
  - destruct (f x) as [keep|e]; simpl; [|reflexivity].
    rewrite IH. destruct (filterM f a) as [xa|e]; simpl; [|reflexivity].
    destruct (filterM f b) as [xb|e]; simpl; [|reflexivity].
    destruct keep; reflexivity.
Qed.

(** The selector works through a concatenation part by part. *)
Lemma selectPosts_app a b :
  selectPosts (a ++ b) =
  (sa <- selectPosts a ;; sb <- selectPosts b ;; Ok (sa ++ sb)%list).
Proof.
  unfold selectPosts. rewrite filter_app, filterM_app.
  destruct (filterM hasTitleAndUrl (filter hasValidTag a)) as [xa|e]; simpl; [|reflexivity].
  destruct (filterM hasTitleAndUrl (filter hasValidTag b)) as [xb|e]; simpl; [|reflexivity].
  now rewrite filter_app.
Qed.

(** An item without a valid tag, or without a truthy title, is dropped
    before its page is read. *)
Lemma selectPosts_single_dropped item :
  hasValidTag item = false \/ Dyn.truthy (Data.title (Item.data item)) = false ->
  selectPosts [item] = Ok [].
Proof.
  intros H. unfold selectPosts. simpl.
  destruct (hasValidTag item) eqn:Et; simpl; [|reflexivity].
  destruct H as [H|H]; [discriminate|].
  unfold hasTitleAndUrl. rewrite H. reflexivity.
Qed.

Lemma filter_idem {A : Type} (f : A -> bool) (l : list A) :
  filter f (filter f l) = filter f l.
Proof.
  rewrite filter_filter_andb. apply filter_ext. intros x. now destruct (f x).
Qed.

End SelectorMore.

Section SelectorExtras.

Context {R : Requires}.

(** X6: the selector is idempotent: run on its own result, it returns that
    result. *)
Theorem selectPosts_idempotent (items selected : list Item.t) :
  selectPosts items = Ok selected ->
  selectPosts selected = Ok selected.
Proof.
  intros H. apply selectPosts_Ok_inv in H as [_ ->].
  rewrite selectPosts_ok.
  - now rewrite filter_idem.
  - intros item Hin. apply filter_In in Hin as [_ Hin].
    destruct (eligible_page_url item Hin) as (p & _ & Hp & _).
    destruct (unguarded item) eqn:Eu; [|reflexivity].
    apply unguarded_true in Eu as (_ & _ & Hnone). congruence.
Qed.

(** X7: an item that has no valid tag, or no truthy title, is never read
    for its page: with or without [data.page], it is left out and the run
    is the one without it. *)
Theorem selectPosts_never_reads (before after : list Item.t) (item : Item.t) :
  hasValidTag item = false \/ Dyn.truthy (Data.title (Item.data item)) = false ->
  selectPosts (before ++ item :: after) = selectPosts (before ++ after).
Proof.
  intros H. change (item :: after) with ([item] ++ after)%list.
  rewrite !selectPosts_app.
  rewrite (selectPosts_single_dropped item H). simpl.
  now rewrite bind_Ok.
Qed.

(** X8: the selector distributes over concatenation: it selects from the
    first part, then from the second, and throws when either part does. *)
Theorem selectPosts_concat (a b : list Item.t) :
  selectPosts (a ++ b) =
  (sa <- selectPosts a ;; sb <- selectPosts b ;; Ok (sa ++ sb)%list).
Proof. apply selectPosts_app. Qed.

End SelectorExtras.

Lemma selectPosts_idempotent_witness :
  @selectPosts example_requires [example_post] = Ok [example_post].
Proof.
  apply (@selectPosts_idempotent example_requires
           [scalar_tags_post; example_post; untitled_post] [example_post]).
  reflexivity.
Defined.

Lemma selectPosts_never_reads_witness :
  @selectPosts example_requires ([example_post] ++ untitled_post :: [example_post])
  = @selectPosts example_requires ([example_post] ++ [example_post]).
Proof.
  apply (@selectPosts_never_reads example_requires
           [example_post] [example_post] untitled_post).
  right. reflexivity.
Defined.

(** ** The whole transform: when it returns, what it throws, what it
    returns *)

Section ExportsMore.

Context {R : Requires}.

Lemma mapM_returns {A B : Type} (f : A -> result B) (l : list A) :
  (forall x, In x l -> exists y, f x = Ok y) -> exists r, mapM f l = Ok r.
Proof.
  induction l as [|x l IH]; intros H; simpl; [eexists; reflexivity|].
  destruct (H x (or_introl eq_refl)) as [y ->].
  destruct IH as [r ->]; [intros z Hz; apply H; right; exact Hz|].
  simpl. eexists; reflexivity.
Qed.

Lemma mapM_Ok_all {A B : Type} (f : A -> result B) (l : list A) (r : list B) :
  mapM f l = Ok r -> forall x, In x l -> exists y, f x = Ok y.
Proof.
  intros H. apply mapM_Ok_inv in H.
  induction H as [|x y l r Hxy _ IH]; intros z Hz; [contradiction|].
  destruct Hz as [<-|Hz]; [exists y; exact Hxy|now apply IH].
Qed.

Lemma mapM_Ok_Forall {A B : Type} (f : A -> result B) (P : B -> Prop)
  (l : list A) (r : list B) :
  (forall x y, f x = Ok y -> P y) -> mapM f l = Ok r -> Forall P r.
Proof.
  intros HP H. apply mapM_Ok_inv in H.
  induction H as [|x y l r Hxy _ IH]; constructor; eauto.
Qed.

(** What a post is mapped to, when it is mapped. *)
Lemma post_record_Ok_inv authorsCollection item record :
  post_record authorsCollection item = Ok record ->
  (forall author, In author (Dyn.or_empty (Data.authors (Item.data item))) ->
                  Dyn.index authorsCollection author <> None) /\
  Data.page (Item.data item) <> None /\
  record =
  {| SearchRecord.objectID := objectID_of (page_url item);
     SearchRecord.lang := lang;
     SearchRecord.title := Data.title (Item.data item);
     SearchRecord.url := Data.canonicalUrl (Item.data item);
     SearchRecord.description := Data.description (Item.data item);
     SearchRecord.fulltext :=
       limitText (removeMarkdown
                    (FrontMatter.content (Template.frontMatter (Item.template item))))
                 None;
     SearchRecord.authors :=
       Some (map (title_of authorsCollection)
                 (Dyn.or_empty (Data.authors (Item.data item))));
     SearchRecord._tags := Some (Data.tags (Item.data item)) |}.
Proof.
  intros H.
  assert (Hkeys : forall author,
             In author (Dyn.or_empty (Data.authors (Item.data item))) ->
             Dyn.index authorsCollection author <> None).
  { intros author Hin Hnone.
    rewrite (post_record_throws _ _ author Hin Hnone) in H. discriminate. }
  split; [exact Hkeys|].
  destruct (post_record_objectID _ _ _ H) as [Hpage _]. split; [exact Hpage|].
  destruct (Data.page (Item.data item)) as [p|] eqn:Ep; [|contradiction].
  rewrite (post_record_ok _ item p Hkeys Ep) in H. injection H as <-.
  unfold page_url. now rewrite Ep.
Qed.

(** The mapper of authors and of tags returns exactly for an entry with a
    data object and a description. *)
Lemma author_record_cases entry :
  (exists data text,
     Entry.data entry = Some data /\ Entry.description entry = Some text /\
     author_record entry =
     Ok {| SearchRecord.objectID := objectID_of (Entry.href entry);
           SearchRecord.lang := lang;
           SearchRecord.title := Entry.title entry;
           SearchRecord.url := EntryData.canonicalUrl data;
           SearchRecord.description := Some text;
           SearchRecord.fulltext := limitText text None;
           SearchRecord.authors := None;
           SearchRecord._tags := None |}) \/
  ((Entry.data entry = None \/ Entry.description entry = None) /\
   (author_record entry = Throw (TypeError "canonicalUrl") \/
    author_record entry = Throw (TypeError "length"))).
Proof.
  unfold author_record, limitText_call.
  destruct (Entry.data entry) as [d|] eqn:Ed; simpl.
  - destruct (Entry.description entry) as [text|] eqn:Et; simpl.
    + left. exists d, text. repeat split.
    + right. split; [right; reflexivity|right; reflexivity].
  - right. split; [left; reflexivity|left; reflexivity].
Qed.

Lemma tag_record_author_record entry : tag_record entry = author_record entry.
Proof. reflexivity. Qed.

Lemma newsletter_record_cases item :
  (exists page,
     Data.page (Item.data item) = Some page /\
     newsletter_record item =
     Ok {| SearchRecord.objectID := objectID_of (Page.url page);
           SearchRecord.lang := lang;
           SearchRecord.title := Data.title (Item.data item);
           SearchRecord.url := Data.canonicalUrl (Item.data item);
           SearchRecord.description := Data.description (Item.data item);
           SearchRecord.fulltext :=
             limitText (removeMarkdown
                          (FrontMatter.content
                             (Template.frontMatter (Item.template item))))
                       None;
           SearchRecord.authors := None;
           SearchRecord._tags := None |}) \/
  (Data.page (Item.data item) = None /\
   newsletter_record item = Throw (TypeError "url")).
Proof.
  unfold newsletter_record.
  destruct (Data.page (Item.data item)) as [p|]; simpl.
  - left. exists p. split; reflexivity.
  - right. split; reflexivity.
Qed.

Lemma limitText_default_fits t : Js.length (limitText t None) <= 7500.
Proof. apply (limitText_fits t default_limit). unfold default_limit. lia. Qed.

Lemma post_record_well_formed authorsCollection item record :
  post_record authorsCollection item = Ok record -> well_formed record.
Proof.
  intros H. apply post_record_Ok_inv in H as (_ & _ & ->).
  split; [reflexivity|]. split; [eexists; reflexivity|apply limitText_default_fits].
Qed.

Lemma author_record_well_formed entry record :
  author_record entry = Ok record -> well_formed record.
Proof.
  intros H. destruct (author_record_cases entry)
    as [(d & text & _ & _ & Heq)|[_ [Heq|Heq]]]; rewrite Heq in H;
    try discriminate.
  injection H as <-.
  split; [reflexivity|]. split; [eexists; reflexivity|apply limitText_default_fits].
Qed.

Lemma newsletter_record_well_formed item record :
  newsletter_record item = Ok record -> well_formed record.
Proof.
  intros H. destruct (newsletter_record_cases item) as [(p & _ & Heq)|[_ Heq]];
    rewrite Heq in H; [|discriminate].
  injection H as <-.
  split; [reflexivity|]. split; [eexists; reflexivity|apply limitText_default_fits].
Qed.

End ExportsMore.

Section ExportsExtras.

Context {R : Requires}.

(** X9: on a collection whose fields have the types of the data model
    (author keys in a sequence or absent), the transform returns a list
    exactly when (1) every item that has ["post"] among a sequence of tags
    and a truthy title has [data.page], (2) every author key of every
    eligible post is found by the lookup in the authors collection, as an
    entry of its own or as the name of an inherited member, (3) every entry
    of the authors feed has a data object and a description, (4) every
    newsletter has [data.page] and (5) every entry of the tags feed has a
    data object and a description.  Otherwise it throws. *)
Theorem algolia_returns_iff (collection : Collection.t) :
  (exists records, algolia collection = Ok records) <->
  (forall item,
     In item (Collection.getFilteredByGlob collection "**/*.md") ->
     isArray (Data.tags (Item.data item)) = true ->
     In "post"%string (elements (Data.tags (Item.data item))) ->
     Dyn.truthy (Data.title (Item.data item)) = true ->
     Data.page (Item.data item) <> None) /\
  (forall item author,
     In item (Collection.getFilteredByGlob collection "**/*.md") ->
     eligible item = true ->
     In author (Dyn.or_empty (Data.authors (Item.data item))) ->
     Dyn.property (authorsCollectionFn collection) author <> None \/
     In author Dyn.object_prototype) /\
  (forall entry,
     In entry (authorsFeed (Dyn.values (authorsCollectionFn collection))) ->
     Entry.data entry <> None /\ Entry.description entry <> None) /\
  (forall item,
     In item (newslettersCollectionFn collection) ->
     Data.page (Item.data item) <> None) /\
  (forall entry,
     In entry (tagsFeed (Dyn.values (tagsCollectionFn collection))) ->
     Entry.data entry <> None /\ Entry.description entry <> None).
Proof.
  assert (Hentry : forall entry y, author_record entry = Ok y ->
                   Entry.data entry <> None /\ Entry.description entry <> None).
  { intros entry y Hy.
    destruct (author_record_cases entry)
      as [(d & text & Hd & Ht & _)|[_ [Heq|Heq]]]; [|congruence|congruence].
    rewrite Hd, Ht. split; discriminate. }
  assert (Hentry' : forall entry,
            Entry.data entry <> None /\ Entry.description entry <> None ->
            exists y, author_record entry = Ok y).
  { intros entry [Hd Ht].
    destruct (author_record_cases entry)
      as [(d & text & _ & _ & Heq)|[[H|H] _]]; [|contradiction|contradiction].
    eexists; exact Heq. }
  unfold algolia, eleventyPosts. split.
  - intros [records H].
    destruct (selectPosts _) as [selected|] eqn:Hsel; simpl in H; [|discriminate].
    destruct (posts _ selected) as [ps|] eqn:Hps; simpl in H; [|discriminate].
    destruct (authors _) as [us|] eqn:Hus; simpl in H; [|discriminate].
    destruct (newsletters _) as [ns|] eqn:Hns; simpl in H; [|discriminate].
    destruct (tags _) as [ts|] eqn:Hts; simpl in H; [|discriminate].
    apply selectPosts_Ok_inv in Hsel as [Hsafe ->].
    split; [intros item Hin; apply unguarded_false, Hsafe, Hin|].
    split; [|split; [|split]].
    + intros item author Hin Hel Hauthor.
      destruct (mapM_Ok_all _ _ _ Hps item) as [y Hy];
        [apply filter_In; split; assumption|].
      apply post_record_Ok_inv in Hy as (Hkeys & _).
      now apply index_found, Hkeys.
    + intros entry Hin. destruct (mapM_Ok_all _ _ _ Hus entry Hin) as [y Hy].
      exact (Hentry entry y Hy).
    + intros item Hin. destruct (mapM_Ok_all _ _ _ Hns item Hin) as [y Hy].
      destruct (newsletter_record_cases item) as [(p & Hp & _)|[_ Heq]];
        congruence.
    + intros entry Hin. destruct (mapM_Ok_all _ _ _ Hts entry Hin) as [y Hy].
      exact (Hentry entry y Hy).
  - intros (Hsafe & Hkeys & Hauthors & Hnews & Htags).
    rewrite selectPosts_ok
      by (intros item Hin; now apply unguarded_false, Hsafe).
    simpl.
    destruct (mapM_returns (post_record (authorsCollectionFn collection))
                (filter eligible (Collection.getFilteredByGlob collection "**/*.md")))
      as [ps Hps].
    { intros item Hin. apply filter_In in Hin as [Hin Hel].
      destruct (eligible_page_url item Hel) as (p & _ & Hp & _).
      eexists. apply (post_record_ok _ item p); [|exact Hp].
      intros author Hauthor. now apply index_found, (Hkeys item). }
    destruct (mapM_returns author_record
                (authorsFeed (Dyn.values (authorsCollectionFn collection))))
      as [us Hus].
    { intros entry Hin. apply Hentry', Hauthors, Hin. }
    destruct (mapM_returns newsletter_record (newslettersCollectionFn collection))
      as [ns Hns].
    { intros item Hin.
      destruct (newsletter_record_cases item) as [(p & _ & Heq)|[Hp _]].
      - eexists; exact Heq.
      - exfalso. exact (Hnews item Hin Hp). }
    destruct (mapM_returns tag_record
                (tagsFeed (Dyn.values (tagsCollectionFn collection))))
      as [ts Hts].
    { intros entry Hin. rewrite tag_record_author_record. apply Hentry', Htags, Hin. }
    unfold posts, authors, newsletters, tags.
    rewrite Hps. simpl. rewrite Hus. simpl. rewrite Hns. simpl. rewrite Hts. simpl.
    eexists; reflexivity.
Qed.

(** X11: every record of the returned list has the language code ["en"],
    an object ID that ends with ["#en"], and a full text of at most 7500
    characters. *)
Theorem algolia_records_well_formed (collection : Collection.t)
  (records : list SearchRecord.t) :
  algolia collection = Ok records -> Forall well_formed records.
Proof.
  unfold algolia. intros H.
  destruct (eleventyPosts collection) as [selected|] eqn:Hsel; simpl in H; [|discriminate].
  destruct (posts _ selected) as [ps|] eqn:Hps; simpl in H; [|discriminate].
  destruct (authors _) as [us|] eqn:Hus; simpl in H; [|discriminate].
  destruct (newsletters _) as [ns|] eqn:Hns; simpl in H; [|discriminate].
  destruct (tags _) as [ts|] eqn:Hts; simpl in H; [|discriminate].
  injection H as <-. repeat (apply Forall_app; split).
  - exact (mapM_Ok_Forall _ _ _ _ (post_record_well_formed _) Hps).
  - exact (mapM_Ok_Forall _ _ _ _ author_record_well_formed Hus).
  - exact (mapM_Ok_Forall _ _ _ _ newsletter_record_well_formed Hns).
  - exact (mapM_Ok_Forall _ _ _ _ author_record_well_formed Hts).
Qed.

(** X12: the record of a selected post carries the post's fields: its
    title, which is truthy, its canonical URL and description, the limited
    plain text of its body, its tags, which are a sequence holding
    ["post"], and for each author key, in order, the title of the entry the
    key names; a post with no [authors] field gets the empty list. *)
Theorem posts_fields (collection : Collection.t)
  (selected : list Item.t) (records : list SearchRecord.t) :
  eleventyPosts collection = Ok selected ->
  posts (authorsCollectionFn collection) selected = Ok records ->
  Forall2
    (fun item record =>
       SearchRecord.title record = Data.title (Item.data item) /\
       Dyn.truthy (SearchRecord.title record) = true /\
       SearchRecord.url record = Data.canonicalUrl (Item.data item) /\
       SearchRecord.description record = Data.description (Item.data item) /\
       SearchRecord.fulltext record =
         limitText (removeMarkdown
                      (FrontMatter.content (Template.frontMatter (Item.template item))))
                   None /\
       SearchRecord._tags record = Some (Data.tags (Item.data item)) /\
       isArray (Data.tags (Item.data item)) = true /\
       In "post"%string (elements (Data.tags (Item.data item))) /\
       SearchRecord.authors record =
         Some (map (title_of (authorsCollectionFn collection))
                   (Dyn.or_empty (Data.authors (Item.data item)))) /\
       (Data.authors (Item.data item) = None ->
        SearchRecord.authors record = Some []))
    selected records.
Proof.
  intros Hsel Hps. apply selectPosts_Ok_inv in Hsel as [_ Hsel].
  assert (Hel : forall item, In item selected -> eligible item = true).
  { intros item Hin. rewrite Hsel in Hin. now apply filter_In in Hin. }
  clear Hsel. unfold posts in Hps. apply mapM_Ok_inv in Hps.
  induction Hps as [|item record l l' Hrec _ IH]; constructor.
  - apply post_record_Ok_inv in Hrec as (_ & _ & ->). simpl.
    pose proof (Hel item (or_introl eq_refl)) as He.
    rewrite eligible_spec, !andb_true_iff in He.
    destruct He as [[Htag [Htitle _]] _].
    apply hasValidTag_post in Htag as [Harr Hpost].
    repeat split; auto. intros ->. reflexivity.
  - apply IH. intros x Hx. apply Hel. right. exact Hx.
Qed.

End ExportsExtras.

Lemma algolia_records_well_formed_witness :
  Forall well_formed
    [ {| SearchRecord.objectID := "/example/#en";
         SearchRecord.lang := "en";
         SearchRecord.title := Some "Example"%string;
         SearchRecord.url := Some "/example/"%string;
         SearchRecord.description := None;
         SearchRecord.fulltext := two_lines;
         SearchRecord.authors := Some [Some "Author X"%string];
         SearchRecord._tags := Some (TagsArray ["post"%string]) |};
      {| SearchRecord.objectID := "/authors/authorx/#en";
         SearchRecord.lang := "en";
         SearchRecord.title := Some "Author X"%string;
         SearchRecord.url := Some "/authors/authorx/"%string;
         SearchRecord.description := Some "Posts by Author X."%string;
         SearchRecord.fulltext := "Posts by Author X.";
         SearchRecord.authors := None;
         SearchRecord._tags := None |};
      {| SearchRecord.objectID := "/newsletter/1/#en";
         SearchRecord.lang := "en";
         SearchRecord.title := None;
         SearchRecord.url := None;
         SearchRecord.description := None;
         SearchRecord.fulltext := two_lines;
         SearchRecord.authors := None;
         SearchRecord._tags := None |} ].
Proof.
  apply (@algolia_records_well_formed example_requires (site [example_post])).
  reflexivity.
Defined.

Lemma posts_fields_witness :
  Forall2
    (fun item record =>
       SearchRecord.title record = Data.title (Item.data item) /\
       Dyn.truthy (SearchRecord.title record) = true /\
       SearchRecord.url record = Data.canonicalUrl (Item.data item) /\
       SearchRecord.description record = Data.description (Item.data item) /\
       SearchRecord.fulltext record =
         limitText (@removeMarkdown example_requires
                      (FrontMatter.content (Template.frontMatter (Item.template item))))
                   None /\
       SearchRecord._tags record = Some (Data.tags (Item.data item)) /\
       isArray (Data.tags (Item.data item)) = true /\
       In "post"%string (elements (Data.tags (Item.data item))) /\
       SearchRecord.authors record =
         Some (map (title_of (@authorsCollectionFn example_requires (site [example_post])))
                   (Dyn.or_empty (Data.authors (Item.data item)))) /\
       (Data.authors (Item.data item) = None ->
        SearchRecord.authors record = Some []))
    [example_post]
    [ {| SearchRecord.objectID := "/example/#en";
         SearchRecord.lang := "en";
         SearchRecord.title := Some "Example"%string;
         SearchRecord.url := Some "/example/"%string;
         SearchRecord.description := None;
         SearchRecord.fulltext := two_lines;
         SearchRecord.authors := Some [Some "Author X"%string];
         SearchRecord._tags := Some (TagsArray ["post"%string]) |} ].
Proof.
  apply (@posts_fields example_requires (site [example_post])); reflexivity.
Defined.

Section FeedsExtras.

Context {R : Requires}.

(** X13: the records of the authors, of the tags and of the newsletters
    follow the order of the authors feed, of the tags feed and of the
    newsletters collection, one record per entry.  A record of an author or
    of a tag has the entry's title and description, the canonical URL of
    its data object, the limited description for its full text and an
    object ID built from the [href]; a newsletter's record has its title,
    canonical URL and description, the limited plain text of its body and
    an object ID built from the page URL.  None of them has authors or
    tags. *)
Theorem feeds_fields (collection : Collection.t) :
  (forall records,
     authors (authorsCollectionFn collection) = Ok records ->
     Forall2
       (fun entry record =>
          SearchRecord.objectID record = objectID_of (Entry.href entry) /\
          SearchRecord.title record = Entry.title entry /\
          SearchRecord.description record = Entry.description entry /\
          (exists text, Entry.description entry = Some text /\
                        SearchRecord.fulltext record = limitText text None) /\
          (exists data, Entry.data entry = Some data /\
                        SearchRecord.url record = EntryData.canonicalUrl data) /\
          SearchRecord.authors record = None /\
          SearchRecord._tags record = None)
       (authorsFeed (Dyn.values (authorsCollectionFn collection))) records) /\
  (forall records,
     tags (tagsCollectionFn collection) = Ok records ->
     Forall2
       (fun entry record =>
          SearchRecord.objectID record = objectID_of (Entry.href entry) /\
          SearchRecord.title record = Entry.title entry /\
          SearchRecord.description record = Entry.description entry /\
          (exists text, Entry.description entry = Some text /\
                        SearchRecord.fulltext record = limitText text None) /\
          (exists data, Entry.data entry = Some data /\
                        SearchRecord.url record = EntryData.canonicalUrl data) /\
          SearchRecord.authors record = None /\
          SearchRecord._tags record = None)
       (tagsFeed (Dyn.values (tagsCollectionFn collection))) records) /\
  (forall records,
     newsletters (newslettersCollectionFn collection) = Ok records ->
     Forall2
       (fun item record =>
          SearchRecord.objectID record = objectID_of (page_url item) /\
          Data.page (Item.data item) <> None /\
          SearchRecord.title record = Data.title (Item.data item) /\
          SearchRecord.url record = Data.canonicalUrl (Item.data item) /\
          SearchRecord.description record = Data.description (Item.data item) /\
          SearchRecord.fulltext record =
            limitText (removeMarkdown
                         (FrontMatter.content
                            (Template.frontMatter (Item.template item))))
                      None /\
          SearchRecord.authors record = None /\
          SearchRecord._tags record = None)
       (newslettersCollectionFn collection) records).
Proof.
  assert (Hentries : forall l records,
            mapM author_record l = Ok records ->
            Forall2
              (fun entry record =>
                 SearchRecord.objectID record = objectID_of (Entry.href entry) /\
                 SearchRecord.title record = Entry.title entry /\
                 SearchRecord.description record = Entry.description entry /\
                 (exists text, Entry.description entry = Some text /\
                               SearchRecord.fulltext record = limitText text None) /\
                 (exists data, Entry.data entry = Some data /\
                               SearchRecord.url record = EntryData.canonicalUrl data) /\
                 SearchRecord.authors record = None /\
                 SearchRecord._tags record = None)
              l records).
  { intros l records H. apply mapM_Ok_inv in H.
    induction H as [|entry record l l' Hrec _ IH]; constructor; [|exact IH].
    destruct (author_record_cases entry)
      as [(d & text & Hd & Ht & Heq)|[_ [Heq|Heq]]]; rewrite Heq in Hrec;
      try discriminate.
    injection Hrec as <-. simpl. rewrite Ht.
    repeat split; eauto. }
  split; [|split].
  - intros records H. now apply Hentries.
  - intros records H. now apply Hentries.
  - intros records H. unfold newsletters in H. apply mapM_Ok_inv in H.
    induction H as [|item record l l' Hrec _ IH]; constructor; [|exact IH].
    destruct (newsletter_record_cases item) as [(p & Hp & Heq)|[_ Heq]];
      rewrite Heq in Hrec; [|discriminate].
    injection Hrec as <-. simpl. unfold page_url. rewrite Hp.
    repeat split; auto. discriminate.
Qed.

End FeedsExtras.
